(** * Verification of [_genproto.py]

    The script prepares [rpc.proto] for the protobuf compiler, runs
    [grpc.tools.protoc] as a child process and patches the imports of the
    generated Python modules.

    Modelling conventions.
    - A Python [str] is a [list ascii]; each [ascii] stands for one code
      point below 256.  All patterns of the script are plain ASCII.
    - Python integers are [Z].
    - A text file is the sequence of lines that Python's text layer yields
      for it ([readlines], iteration over a [fileinput]); [writelines] and
      the in-place [print] of [sed_inplace] store such a sequence back.
    - The file system is a finite table of regular files and of
      directories, each under its path.  A path below a component that is
      not a directory fails with the error of that component.
    - [main] runs in a small state-and-exception monad over a world made of
      the file system and the console.  Opening a missing file, [mkdir] and
      [touch] raise as [pathlib] does; permission errors and symbolic links
      are not modelled. *)

From Stdlib Require Import List String Ascii ZArith Bool Lia Arith.
Import ListNotations.


(** ** Strings *)

Module Str.

Definition str := list ascii.

Definition lit (s : string) : str := list_ascii_of_string s.

Fixpoint eqb (a b : str) : bool :=
  match a, b with
  | [], [] => true
  | x :: a', y :: b' => Ascii.eqb x y && eqb a' b'
  | _, _ => false
  end.

(** [s.startswith(p)] *)
Fixpoint startswith (p s : str) : bool :=
  match p, s with
  | [], _ => true
  | _ :: _, [] => false
  | a :: p', b :: s' => Ascii.eqb a b && startswith p' s'
  end.

(** [sub in s] *)
Fixpoint contains (sub s : str) : bool :=
  match s with
  | [] => startswith sub []
  | _ :: s' => startswith sub s || contains sub s'
  end.

(** [s.replace(old, new)] for a non-empty [old]: scan from the left, copy a
    character when [old] does not start here, otherwise emit [new] and jump
    over the occurrence.  [skip] counts the characters of the occurrence that
    are still to be jumped over. *)
Fixpoint replace_from (old new : str) (skip : nat) (s : str) : str :=
  match s with
  | [] => []
  | c :: s' =>
      match skip with
      | S k => replace_from old new k s'
      | O =>
          if startswith old s
          then new ++ replace_from old new (List.length old - 1) s'
          else c :: replace_from old new 0 s'
      end
  end.

(** [s.replace(old, new)]; with an empty [old] Python puts [new] before
    every character and at the end. *)
Definition replace (old new s : str) : str :=
  match old with
  | [] => new ++ flat_map (fun c => c :: new) s
  | _ :: _ => replace_from old new 0 s
  end.

(** [c.isspace()] on code points below 256. *)
Definition isspace (c : ascii) : bool :=
  let n := nat_of_ascii c in
  ((9 <=? n) && (n <=? 13)) || ((28 <=? n) && (n <=? 32))
  || (n =? 133) || (n =? 160).

Fixpoint lstrip (s : str) : str :=
  match s with
  | [] => []
  | c :: s' => if isspace c then lstrip s' else s
  end.

Definition rstrip (s : str) : str := rev (lstrip (rev s)).

(** [s.strip()] *)
Definition strip (s : str) : str := rstrip (lstrip s).

(** [sep.join(parts)] *)
Fixpoint join (sep : str) (parts : list str) : str :=
  match parts with
  | [] => []
  | [p] => p
  | p :: rest => p ++ sep ++ join sep rest
  end.

(** [re.sub("^" + pat, repl, line)] for a pattern [pat] and a replacement
    [repl] without regular-expression metacharacters.  Without
    [re.MULTILINE] the anchor matches at offset 0 only, so at most one
    occurrence is replaced. *)
Definition re_sub_anchored (pat repl line : str) : str :=
  if startswith pat line then repl ++ skipn (List.length pat) line else line.

(** All suffixes of a string, the longest first, the empty one left out. *)
Fixpoint tails (s : str) : list str :=
  match s with
  | [] => []
  | _ :: s' => s :: tails s'
  end.

(** Two strings clash when they differ at a position both have. *)
Fixpoint clash (a b : str) : bool :=
  match a, b with
  | x :: a', y :: b' => if Ascii.eqb x y then clash a' b' else true
  | _, _ => false
  end.

(** A replacement text [new] cannot take part in an occurrence of [m]:
    no suffix of [m] can begin where [new] begins, and [m] cannot begin
    inside [new]. *)
Definition foreign (m new : str) : bool :=
  forallb (fun m' => clash m' new) (tails m)
  && forallb (fun n' => clash m n') (tails new).

End Str.
Import Str.

Definition dquote : ascii := ascii_of_nat 34.

(** ** Schema filtering: the loop of [main] over the lines of [rpc.proto] *)

Open Scope Z_scope.

Definition GOGOPROTO : str := lit "gogoproto".
Definition ANNOTATIONS : str := lit "google/api/annotations.proto".
Definition HTTP_OPTION : str := lit "option (google.api.http)".
Definition KV_OLD : str := lit "etcd/mvcc/mvccpb/kv.proto".
Definition KV_NEW : str := lit "kv.proto".
Definition AUTH_OLD : str := lit "etcd/auth/authpb/auth.proto".
Definition AUTH_NEW : str := lit "auth.proto".

(** The two [line.replace] calls, in the order of the script. *)
Definition substitute (line : str) : str :=
  replace AUTH_OLD AUTH_NEW (replace KV_OLD KV_NEW line).

(** The substitution applied to every line of a file. *)
Definition substitute_lines (lines : list str) : list str :=
  map substitute lines.

(** The variables the loop updates: the skip counter, the output list and
    what it has printed to standard output. *)
Record loop_state := mkLoop {
  skip_lines : Z;
  modified_lines : list str;
  printed : list str
}.

Definition loop_init : loop_state := mkLoop 0 [] [].

(** A state that has the counter at [k] and has produced nothing yet. *)
Definition fresh (k : Z) : loop_state := mkLoop k [] [].

(** [d] continued from where [st] stands: the counter of [d] and its
    output and messages after those of [st]. *)
Definition glue (st d : loop_state) : loop_state :=
  mkLoop (skip_lines d) (modified_lines st ++ modified_lines d)
         (printed st ++ printed d).

(** One iteration of [for line in lines]. *)
Definition loop_body (st : loop_state) (line : str) : loop_state :=
  if 0 <? skip_lines st then
    mkLoop (skip_lines st - 1) (modified_lines st) (printed st)
  else if contains GOGOPROTO line then
    mkLoop (skip_lines st) (modified_lines st)
           (printed st ++ [lit "Dropping line: " ++ strip line])
  else if contains ANNOTATIONS line then
    mkLoop (skip_lines st) (modified_lines st)
           (printed st ++ [lit "Dropping line: " ++ strip line])
  else if contains HTTP_OPTION line then
    mkLoop 3 (modified_lines st)
           (printed st
            ++ [lit "Dropping http option block starting with: " ++ strip line])
  else
    mkLoop (skip_lines st) (modified_lines st ++ [substitute line])
           (printed st).

Definition run_loop (st : loop_state) (lines : list str) : loop_state :=
  fold_left loop_body lines st.

(** The line filter: the content written back to [rpc.proto]. *)
Definition main_filter (lines : list str) : list str :=
  modified_lines (run_loop loop_init lines).

(** Observations of one pass, by position (counted from 0). *)
Definition state_before (lines : list str) (i : nat) : loop_state :=
  run_loop loop_init (firstn i lines).

Definition skip_before (lines : list str) (i : nat) : Z :=
  skip_lines (state_before lines i).

(** The iteration on line [i] appends to the output. *)
Definition appended_at (lines : list str) (i : nat) : bool :=
  negb (List.length (modified_lines (state_before lines (S i)))
        =? List.length (modified_lines (state_before lines i)))%nat.

(** A line the filter neither drops by a marker nor treats as the head of
    an option block. *)
Definition unmarked (line : str) : bool :=
  negb (contains GOGOPROTO line) && negb (contains ANNOTATIONS line)
  && negb (contains HTTP_OPTION line).

(** A line that opens an option block when it is reached outside one. *)
Definition opens_block (line : str) : bool :=
  negb (contains GOGOPROTO line) && negb (contains ANNOTATIONS line)
  && contains HTTP_OPTION line.

(** ** The world of [main] *)

Inductive exn :=
| FileNotFoundError
| FileExistsError
| IsADirectoryError
| NotADirectoryError
| OSError.

Inductive outcome (A : Type) :=
| Ok (a : A)
| SystemExit (code : Z)
| Raise (e : exn).
Arguments Ok {A} a.
Arguments SystemExit {A} code.
Arguments Raise {A} e.

(** The file system: the regular files with their lines and the
    directories, each under its path.  In [file_list] the first entry for
    a path is the one that counts. *)
Record FS := mkFS {
  file_list : list (str * list str);
  dir_list : list str
}.

Fixpoint lookup (l : list (str * list str)) (p : str) : option (list str) :=
  match l with
  | [] => None
  | (k, v) :: rest => if Str.eqb p k then Some v else lookup rest p
  end.

(** The lines of the regular file at [p], if there is one. *)
Definition files (f : FS) (p : str) : option (list str) :=
  lookup (file_list f) p.

(** Whether a directory stands at [p]. *)
Definition dirs (f : FS) (p : str) : bool :=
  existsb (Str.eqb p) (dir_list f).

Inductive stream := Stdout | Stderr.

Record World := mkWorld {
  fs : FS;
  console : list (stream * str)
}.

(** [subprocess.CompletedProcess] *)
Record ProcessResult := mkResult {
  returncode : Z;
  stdout : str;
  stderr : str
}.

(** What the script takes from its environment: where it lives, the
    interpreter, whether [grpc.tools] can be imported, and the behaviour of
    the child process on a file system. *)
Record Env := mkEnv {
  PROJECT_ROOT : str;
  sys_executable : str;
  grpc_tools_importable : bool;
  subprocess_run : list str -> FS -> ProcessResult * FS
}.

Definition M (A : Type) : Type := World -> outcome A * World.

Definition ret {A} (a : A) : M A := fun w => (Ok a, w).

Definition bind {A B} (c : M A) (k : A -> M B) : M B :=
  fun w =>
    match c w with
    | (Ok a, w') => k a w'
    | (SystemExit code, w') => (SystemExit code, w')
    | (Raise e, w') => (Raise e, w')
    end.

Notation "x <- c ;; k" := (bind c (fun x => k))
  (at level 61, c at next level, right associativity).
Notation "c ;; k" := (bind c (fun _ => k))
  (at level 61, right associativity).

Definition print (msg : str) : M unit :=
  fun w => (Ok tt, mkWorld (fs w) (console w ++ [(Stdout, msg)])).

Definition print_err (msg : str) : M unit :=
  fun w => (Ok tt, mkWorld (fs w) (console w ++ [(Stderr, msg)])).

Fixpoint print_all (msgs : list str) : M unit :=
  match msgs with
  | [] => ret tt
  | m :: rest => print m ;; print_all rest
  end.

Definition sys_exit {A} (code : Z) : M A := fun w => (SystemExit code, w).

Definition remove_file (l : list (str * list str)) (path : str)
  : list (str * list str) :=
  filter (fun e => negb (Str.eqb (fst e) path)) l.

Definition set_file (f : FS) (path : str) (content : option (list str)) : FS :=
  match content with
  | Some c => mkFS ((path, c) :: remove_file (file_list f) path) (dir_list f)
  | None => mkFS (remove_file (file_list f) path) (dir_list f)
  end.

Definition set_dir (f : FS) (path : str) : FS :=
  mkFS (file_list f) (path :: dir_list f).

Definition slash : ascii := ascii_of_nat 47.

(** The directories a path goes through, the outermost first: its proper
    prefixes that end right before a [/]. *)
Fixpoint parents_from (pre rest : str) : list str :=
  match rest with
  | [] => []
  | c :: rest' =>
      if Ascii.eqb c slash
      then match pre with
           | [] => parents_from (pre ++ [c]) rest'
           | _ :: _ => pre :: parents_from (pre ++ [c]) rest'
           end
      else parents_from (pre ++ [c]) rest'
  end.

Definition parents (path : str) : list str := parents_from [] path.

(** What the system reports for a path that does not resolve: the first
    component that is not a directory decides, [ENOTDIR] when a regular
    file stands there and [ENOENT] otherwise. *)
Fixpoint first_obstacle (f : FS) (ancestors : list str) : exn :=
  match ancestors with
  | [] => FileNotFoundError
  | a :: rest =>
      if dirs f a then first_obstacle f rest
      else match files f a with
           | Some _ => NotADirectoryError
           | None => FileNotFoundError
           end
  end.

Definition missing_error (f : FS) (path : str) : exn :=
  first_obstacle f (parents path).

(** [q] is [d] or lies below it. *)
Definition under (d q : str) : bool :=
  Str.eqb q d || startswith (d ++ [slash]) q.

(** [os.unlink(path)] with its errors ignored: a regular file goes, a
    directory stays. *)
Definition unlink (f : FS) (path : str) : FS :=
  match files f path with
  | Some _ => if dirs f path then f else set_file f path None
  | None => f
  end.

(** No file and no directory lies below [d]. *)
Definition dir_empty (f : FS) (d : str) : bool :=
  negb (existsb (fun e => startswith (d ++ [slash]) (fst e)) (file_list f))
  && negb (existsb (fun q => startswith (d ++ [slash]) q) (dir_list f)).

(** The path of an entry after the directory [src] has become [dst]. *)
Definition retarget (src dst q : str) : str :=
  if under src q then dst ++ skipn (List.length src) q else q.

(** [os.rename(src, dst)] for a directory [src]: it takes the place of
    [dst] (an empty directory there is replaced) with all it holds. *)
Definition rename_tree (f : FS) (src dst : str) : FS :=
  mkFS (map (fun e => (retarget src dst (fst e), snd e)) (file_list f))
       (map (retarget src dst)
            (filter (fun q => negb (Str.eqb q dst)) (dir_list f))).

(** [Path.exists()] *)
Definition exists_ (f : FS) (path : str) : bool :=
  match files f path with Some _ => true | None => dirs f path end.

(** [open(path, "r").readlines()] *)
Definition read_lines (path : str) : M (list str) :=
  fun w =>
    match files (fs w) path with
    | Some lines => (Ok lines, w)
    | None =>
        if dirs (fs w) path then (Raise IsADirectoryError, w)
        else (Raise (missing_error (fs w) path), w)
    end.

(** [open(path, "w").writelines(lines)]; the script only writes a file it
    has just read. *)
Definition write_lines (path : str) (lines : list str) : M unit :=
  fun w =>
    if dirs (fs w) path then (Raise IsADirectoryError, w)
    else (Ok tt, mkWorld (set_file (fs w) path (Some lines)) (console w)).

(** [path.mkdir(exist_ok=True)], [parent] being [path.parent]. *)
Definition mkdir_exist_ok (parent path : str) : M unit :=
  fun w =>
    if dirs (fs w) path then (Ok tt, w)
    else match files (fs w) path with
         | Some _ => (Raise FileExistsError, w)
         | None =>
             if dirs (fs w) parent
             then (Ok tt, mkWorld (set_dir (fs w) path) (console w))
             else (Raise (missing_error (fs w) path), w)
         end.

(** [path.touch(exist_ok=True)], [parent] being [path.parent]. *)
Definition touch_exist_ok (parent path : str) : M unit :=
  fun w =>
    if exists_ (fs w) path then (Ok tt, w)
    else if dirs (fs w) parent
    then (Ok tt, mkWorld (set_file (fs w) path (Some [])) (console w))
    else (Raise (missing_error (fs w) path), w).

(** [subprocess.run(cmd, check=False, capture_output=True, ...)] *)
Definition run (env : Env) (cmd : list str) : M ProcessResult :=
  fun w =>
    let (r, f) := subprocess_run env cmd (fs w) in
    (Ok r, mkWorld f (console w)).

(** [sed_inplace]: every line of the file goes through [re.sub] and is
    printed back into the file.  [fileinput] first unlinks the [.bak] name
    and renames the path to it, then reads the backup, writes the path
    anew and unlinks the backup when it closes.  The rename is where it
    fails: on a regular file when a directory stands at the [.bak] name,
    on a missing path, and on a directory when the [.bak] name holds a
    directory that is not empty; a directory that could be renamed is
    moved to the [.bak] name before [open] refuses it. *)
Definition sed_inplace (file_path pattern replacement : str) : M unit :=
  fun w =>
    let backup := file_path ++ lit ".bak" in
    let f := unlink (fs w) backup in
    match files f file_path with
    | Some lines =>
        if dirs f backup
        then (Raise IsADirectoryError, mkWorld f (console w))
        else
          (Ok tt,
           mkWorld
             (set_file (set_file f backup None) file_path
                (Some (map (re_sub_anchored pattern replacement) lines)))
             (console w))
    | None =>
        if dirs f file_path then
          if dirs f backup && negb (dir_empty f backup)
          then (Raise OSError, mkWorld f (console w))
          else (Raise IsADirectoryError,
                mkWorld (rename_tree f file_path backup) (console w))
        else (Raise (missing_error f file_path), mkWorld f (console w))
    end.

(** The lines of [rpc_pb2.py] after the two passes of [sed_inplace] that
    [main] makes over it. *)
Definition patched_pb2 (lines : list str) : list str :=
  map (re_sub_anchored (lit "import kv_pb2")
         (lit "from etcd3.etcdrpc import kv_pb2"))
      (map (re_sub_anchored (lit "import auth_pb2")
              (lit "from etcd3.etcdrpc import auth_pb2")) lines).

(** [path.exists()] as a step of the script. *)
Definition path_exists (path : str) : M bool :=
  fun w => (Ok (exists_ (fs w) path), w).

(** ** Paths and [main] *)

(** [a / b] of [pathlib]. *)
Definition joinpath (a b : str) : str := a ++ lit "/" ++ b.

Section Script.

Variable env : Env.

Definition SRC_DIR : str := joinpath (PROJECT_ROOT env) (lit "src").
Definition PROTO_DIR : str :=
  joinpath (joinpath SRC_DIR (lit "etcd3")) (lit "proto").
Definition ETCDRPC_DIR : str :=
  joinpath (joinpath SRC_DIR (lit "etcd3")) (lit "etcdrpc").
Definition RPC_PROTO_FILE : str := joinpath PROTO_DIR (lit "rpc.proto").
Definition RPC_PB2_FILE : str := joinpath ETCDRPC_DIR (lit "rpc_pb2.py").
Definition RPC_PB2_GRPC_FILE : str :=
  joinpath ETCDRPC_DIR (lit "rpc_pb2_grpc.py").

Definition protoc_command : list str :=
  [ sys_executable env;
    lit "-m";
    lit "grpc.tools.protoc";
    lit "-I" ++ PROTO_DIR;
    lit "--python_out=" ++ ETCDRPC_DIR;
    lit "--grpc_python_out=" ++ ETCDRPC_DIR;
    joinpath PROTO_DIR (lit "rpc.proto");
    joinpath PROTO_DIR (lit "auth.proto");
    joinpath PROTO_DIR (lit "kv.proto") ].

(** The [try: from grpc.tools import protoc] block. *)
Definition import_protoc : M unit :=
  if grpc_tools_importable env then ret tt
  else
    print_err (lit "Error: 'grpcio-tools' is not installed or not found in the current environment.") ;;
    print_err (lit "Please install the required dependencies by running: pip install -e .[protoc]") ;;
    sys_exit 1.

(** Reading, filtering and writing back [rpc.proto]. *)
Definition modify_rpc_proto : M unit :=
  print (lit "--- Modifying rpc.proto before generation ---") ;;
  lines <- read_lines RPC_PROTO_FILE ;;
  let st := run_loop loop_init lines in
  print_all (printed st) ;;
  write_lines RPC_PROTO_FILE (modified_lines st).

(** What [main] does with the result of [subprocess.run]: a non-zero
    return code ends the script. *)
Definition check_result (result : ProcessResult) : M ProcessResult :=
  if negb (returncode result =? 0) then
    print (lit "protoc command failed:") ;;
    print (stdout result) ;;
    print (stderr result) ;;
    sys_exit (returncode result)
  else
    print (stdout result) ;;
    (match stderr result with
     | [] => ret tt
     | _ :: _ => print (lit "protoc stderr:") ;; print (stderr result)
     end) ;;
    ret result.

(** The two calls of [sed_inplace] on [rpc_pb2.py]. *)
Definition patch_rpc_pb2 : M unit :=
  e <- path_exists RPC_PB2_FILE ;;
  if e then
    print (lit "Patching imports in " ++ RPC_PB2_FILE) ;;
    sed_inplace RPC_PB2_FILE (lit "import auth_pb2")
      (lit "from etcd3.etcdrpc import auth_pb2") ;;
    sed_inplace RPC_PB2_FILE (lit "import kv_pb2")
      (lit "from etcd3.etcdrpc import kv_pb2")
  else
    print (lit "Warning: " ++ RPC_PB2_FILE ++ lit " not found for patching.").

(** The call of [sed_inplace] on [rpc_pb2_grpc.py]. *)
Definition patch_rpc_pb2_grpc : M unit :=
  e <- path_exists RPC_PB2_GRPC_FILE ;;
  if e then
    print (lit "Patching imports in " ++ RPC_PB2_GRPC_FILE) ;;
    sed_inplace RPC_PB2_GRPC_FILE (lit "import rpc_pb2")
      (lit "from etcd3.etcdrpc import rpc_pb2")
  else
    print (lit "Warning: " ++ RPC_PB2_GRPC_FILE ++ lit " not found for patching.").

(** Everything after the generator has returned 0. *)
Definition modify_generated : M unit :=
  touch_exist_ok ETCDRPC_DIR (joinpath ETCDRPC_DIR (lit "__init__.py")) ;;
  print (lit "--- Modifying generated python files ---") ;;
  patch_rpc_pb2 ;;
  patch_rpc_pb2_grpc ;;
  print (lit "Proto files generated successfully.").

Definition main : M unit :=
  import_protoc ;;
  modify_rpc_proto ;;
  print (lit "--- Running protoc ---") ;;
  mkdir_exist_ok (joinpath SRC_DIR (lit "etcd3")) ETCDRPC_DIR ;;
  print (lit "Running: " ++ join (lit " ") protoc_command) ;;
  result <- run env protoc_command ;;
  _ <- check_result result ;;
  modify_generated.

(** The part of [main] that precedes [subprocess.run]. *)
Definition until_protoc : M unit :=
  import_protoc ;;
  modify_rpc_proto ;;
  print (lit "--- Running protoc ---") ;;
  mkdir_exist_ok (joinpath SRC_DIR (lit "etcd3")) ETCDRPC_DIR ;;
  print (lit "Running: " ++ join (lit " ") protoc_command).

End Script.

(** The exit status of the interpreter for an outcome of [main]: 0 when
    [main] returns, 1 for an uncaught exception, and for [sys.exit(code)]
    the low eight bits of [code], which is what the parent process sees
    ([sys.exit(-9)] gives 247, [sys.exit(256)] gives 0). *)
Definition exit_status {A} (o : outcome A) : Z :=
  match o with
  | Ok _ => 0
  | SystemExit code => code mod 256
  | Raise _ => 1
  end.

(** ** Concrete inputs used in examples *)

Definition import_kv_line : str :=
  lit "import " ++ [dquote] ++ lit "etcd/mvcc/mvccpb/kv.proto" ++ [dquote]
  ++ lit ";" ++ [ascii_of_nat 10].

Definition import_kv_rewritten : str :=
  lit "import " ++ [dquote] ++ lit "kv.proto" ++ [dquote] ++ lit ";"
  ++ [ascii_of_nat 10].

Definition nl (s : string) : str := lit s ++ [ascii_of_nat 10].

(** An option block whose third line is itself an option line. *)
Definition nested_option_lines : list str :=
  [ nl "    option (google.api.http) = {";
    nl "      post: /v3/kv/range";
    nl "      body: *";
    nl "    option (google.api.http) = {";
    nl "  rpc Put(PutRequest) returns (PutResponse) {}" ].

(** An option line that also carries the [gogoproto] marker. *)
Definition marked_option_lines : list str :=
  [ nl "option (google.api.http) = { // gogoproto";
    nl "message RangeRequest {" ].

(** A path doubled in front of the old import path. *)
Definition doubled_path_line : str :=
  lit "import " ++ [dquote]
  ++ lit "etcd/mvcc/mvccpb/etcd/mvcc/mvccpb/kv.proto" ++ [dquote] ++ lit ";"
  ++ [ascii_of_nat 10].

Definition example_rpc_proto : list str :=
  [ nl "syntax = proto3;";
    import_kv_line;
    nl "import google/api/annotations.proto;";
    nl "option (gogoproto.marshaler_all) = true;";
    nl "service KV {";
    nl "  rpc Range(RangeRequest) returns (RangeResponse) {";
    nl "      option (google.api.http) = {";
    nl "        post: /v3/kv/range";
    nl "        body: *";
    nl "    };";
    nl "  }";
    nl "}" ].

Definition example_fs : FS :=
  mkFS
    [ (lit "/repo/src/etcd3/proto/rpc.proto", example_rpc_proto) ]
    [ lit "/repo"; lit "/repo/src"; lit "/repo/src/etcd3";
      lit "/repo/src/etcd3/proto" ].

Definition example_world : World := mkWorld example_fs [].

Definition example_rpc_pb2 : list str :=
  [ nl "import sys";
    nl "import auth_pb2 as auth__pb2";
    nl "import kv_pb2 as kv__pb2";
    nl "# generated from: import auth_pb2" ].

(** An environment without [grpcio-tools]. *)
Definition env_no_grpc_tools : Env :=
  mkEnv (lit "/repo") (lit "/usr/bin/python3") false
        (fun _ f => (mkResult 0 [] [], f)).

(** A generator that fails with return code 1. *)
Definition env_protoc_fails : Env :=
  mkEnv (lit "/repo") (lit "/usr/bin/python3") true
        (fun _ f =>
           (mkResult 1 (lit "partial output") (lit "rpc.proto: syntax error"),
            f)).

(** A generator that succeeds and writes [rpc_pb2.py] only. *)
Definition env_protoc_no_stub : Env :=
  mkEnv (lit "/repo") (lit "/usr/bin/python3") true
        (fun _ f =>
           (mkResult 0 [] [],
            set_file f (lit "/repo/src/etcd3/etcdrpc/rpc_pb2.py")
                     (Some example_rpc_pb2))).

(** A generated service-stub module. *)
Definition example_rpc_pb2_grpc : list str :=
  [ nl "import grpc";
    nl "import rpc_pb2 as rpc__pb2";
    nl "class KVStub(object):";
    nl "    # uses import rpc_pb2" ].

(** A generator that succeeds and writes both modules. *)
Definition env_protoc_ok : Env :=
  mkEnv (lit "/repo") (lit "/usr/bin/python3") true
        (fun _ f =>
           (mkResult 0 (lit "done") [],
            set_file
              (set_file f (lit "/repo/src/etcd3/etcdrpc/rpc_pb2.py")
                        (Some example_rpc_pb2))
              (lit "/repo/src/etcd3/etcdrpc/rpc_pb2_grpc.py")
              (Some example_rpc_pb2_grpc))).

(** A checkout without [rpc.proto]. *)
Definition world_without_schema : World :=
  mkWorld (mkFS [] [ lit "/repo"; lit "/repo/src"; lit "/repo/src/etcd3" ])
          [].

(** A checkout in which a regular file stands at [src/etcd3/proto]. *)
Definition world_with_file_at_proto : World :=
  mkWorld (mkFS [ (lit "/repo/src/etcd3/proto", []) ]
                [ lit "/repo"; lit "/repo/src"; lit "/repo/src/etcd3" ])
          [].

(** A generator that writes [rpc_pb2.py] while a directory stands at the
    backup name of that file. *)
Definition env_protoc_backup_dir : Env :=
  mkEnv (lit "/repo") (lit "/usr/bin/python3") true
        (fun _ f =>
           (mkResult 0 [] [],
            set_dir
              (set_file f (lit "/repo/src/etcd3/etcdrpc/rpc_pb2.py")
                        (Some example_rpc_pb2))
              (lit "/repo/src/etcd3/etcdrpc/rpc_pb2.py.bak"))).

(** A generator that leaves a directory with one file at the path of
    [rpc_pb2.py]. *)
Definition env_protoc_module_dir : Env :=
  mkEnv (lit "/repo") (lit "/usr/bin/python3") true
        (fun _ f =>
           (mkResult 0 [] [],
            set_dir
              (set_file f (lit "/repo/src/etcd3/etcdrpc/rpc_pb2.py/keep.txt")
                        (Some [nl "kept"]))
              (lit "/repo/src/etcd3/etcdrpc/rpc_pb2.py"))).

(** A generator that is ended by signal 9. *)
Definition env_protoc_killed : Env :=
  mkEnv (lit "/repo") (lit "/usr/bin/python3") true
        (fun _ f => (mkResult (-9) [] [], f)).

(** A schema that needs no filtering. *)
Definition clean_rpc_proto : list str :=
  [ nl "syntax = proto3;";
    import_kv_rewritten;
    nl "service KV {";
    nl "}" ].

(** ** Vocabulary for statements about the file system *)

(** [q] is none of [paths] and lies below none of them. *)
Definition outside (paths : list str) (q : str) : Prop :=
  forall p, In p paths -> under p q = false.

(** [f'] has the files of [f] everywhere but at [paths] and below them. *)
Definition same_files_except (paths : list str) (f f' : FS) : Prop :=
  forall q, outside paths q -> files f' q = files f q.

(** A step that changes no file outside [paths], however it ends. *)
Definition touches_only {A} (paths : list str) (c : M A) : Prop :=
  forall w o w', c w = (o, w') -> same_files_except paths (fs w) (fs w').

(** A step that never ends in [SystemExit]. *)
Definition never_exits {A} (c : M A) : Prop :=
  forall w code w', c w <> (SystemExit code, w').

(** A step that leaves the content of the file [q] as it is. *)
Definition keeps_file {A} (q : str) (c : M A) : Prop :=
  forall w, files (fs (snd (c w))) q = files (fs w) q.

(** The paths [main] itself writes to or removes: the schema, the package
    marker, the two generated modules and their [fileinput] backups. *)
Definition known_paths (env : Env) : list str :=
  [ RPC_PROTO_FILE env;
    joinpath (ETCDRPC_DIR env) (lit "__init__.py");
    RPC_PB2_FILE env;
    RPC_PB2_FILE env ++ lit ".bak";
    RPC_PB2_GRPC_FILE env;
    RPC_PB2_GRPC_FILE env ++ lit ".bak" ].

(** The paths [main] writes to or removes after the generator has run. *)
Definition generated_paths (env : Env) : list str :=
  [ joinpath (ETCDRPC_DIR env) (lit "__init__.py");
    RPC_PB2_FILE env;
    RPC_PB2_FILE env ++ lit ".bak";
    RPC_PB2_GRPC_FILE env;
    RPC_PB2_GRPC_FILE env ++ lit ".bak" ].

(** The message the loop prints for a line it drops by a marker. *)
Definition dropping_message (line : str) : str :=
  lit "Dropping line: " ++ strip line.

(** The newline character and its number of occurrences in a string. *)
Definition newline : ascii := ascii_of_nat 10.

Definition count_newlines (s : str) : nat := count_occ ascii_dec s newline.

(** ** Lemmas on strings *)

Module StrFacts.

Lemma eqb_refl (a : str) : Str.eqb a a = true.
Proof.
  induction a as [|x a IH]; simpl; [reflexivity|].
  now rewrite Ascii.eqb_refl, IH.
Qed.

Lemma eqb_eq (a b : str) : Str.eqb a b = true <-> a = b.
Proof.
  split.
  - revert b; induction a as [|x a IH]; intros [|y b] H; simpl in H;
      try discriminate; [reflexivity|].
    apply andb_true_iff in H as [Hx Ha].
    apply Ascii.eqb_eq in Hx. apply IH in Ha. now subst.
  - intros ->. apply eqb_refl.
Qed.

Lemma eqb_neq (a b : str) : a <> b -> Str.eqb a b = false.
Proof.
  intros H. destruct (Str.eqb a b) eqn:E; [|reflexivity].
  apply eqb_eq in E. contradiction.
Qed.

Lemma startswith_app (p t : str) : startswith p (p ++ t) = true.
Proof.
  induction p as [|x p IH]; simpl; [reflexivity|].
  now rewrite Ascii.eqb_refl, IH.
Qed.

Lemma startswith_split (p s : str) :
  startswith p s = true -> s = p ++ skipn (List.length p) s.
Proof.
  revert s; induction p as [|x p IH]; intros s H; simpl; [reflexivity|].
  destruct s as [|c s]; simpl in H; [discriminate|].
  apply andb_true_iff in H as [Hx Hp].
  apply Ascii.eqb_eq in Hx; subst c.
  simpl. f_equal. now apply IH.
Qed.

Lemma contains_here (m s : str) :
  startswith m s = true -> contains m s = true.
Proof.
  intros H. destruct s as [|c s]; simpl; [exact H|].
  now rewrite H.
Qed.

Lemma contains_cons (m : str) (c : ascii) (s : str) :
  contains m s = true -> contains m (c :: s) = true.
Proof. intros H. simpl. rewrite H. apply orb_true_r. Qed.

Lemma contains_skipn (m : str) (k : nat) (s : str) :
  contains m (skipn k s) = true -> contains m s = true.
Proof.
  revert s; induction k as [|k IH]; intros s H; [exact H|].
  destruct s as [|c s]; [exact H|].
  apply contains_cons, IH, H.
Qed.

Lemma contains_false_cons (m : str) (c : ascii) (s : str) :
  contains m (c :: s) = false ->
  startswith m (c :: s) = false /\ contains m s = false.
Proof. simpl. intros H. now apply orb_false_iff in H. Qed.

(** A string without [old] is left alone by [replace]. *)
Lemma replace_from_absent (old new s : str) :
  contains old s = false -> replace_from old new 0 s = s.
Proof.
  induction s as [|c s IH]; intros H; [reflexivity|].
  apply contains_false_cons in H as [Hs Hc].
  cbn [replace_from]. rewrite Hs. f_equal. now apply IH.
Qed.

Lemma replace_absent (old new s : str) :
  contains old s = false -> replace old new s = s.
Proof.
  destruct old as [|o old].
  - destruct s; discriminate.
  - apply replace_from_absent.
Qed.

(** Jumping over [k] characters is the same as dropping them. *)
Lemma replace_from_skipn (old new : str) (k : nat) (s : str) :
  replace_from old new k s = replace_from old new 0 (skipn k s).
Proof.
  revert k; induction s as [|c s IH]; intros [|k]; try reflexivity.
  simpl. apply IH.
Qed.

Lemma replace_from_here (o : ascii) (old new t : str) :
  replace_from (o :: old) new 0 ((o :: old) ++ t)
  = new ++ replace_from (o :: old) new 0 t.
Proof.
  change ((o :: old) ++ t) with (o :: (old ++ t)).
  cbn [replace_from].
  change (o :: old ++ t) with ((o :: old) ++ t).
  rewrite startswith_app. f_equal.
  rewrite replace_from_skipn. f_equal.
  cbn [List.length]. rewrite Nat.sub_1_r. cbn [Nat.pred].
  rewrite skipn_app, skipn_all, Nat.sub_diag. reflexivity.
Qed.

Lemma clash_startswith (a b t : str) :
  clash a b = true -> startswith a (b ++ t) = false.
Proof.
  revert b; induction a as [|x a IH]; intros [|y b] H; simpl in H;
    try discriminate.
  simpl. destruct (Ascii.eqb x y); [|reflexivity].
  simpl. now apply IH.
Qed.

Lemma tails_tl (x : ascii) (m' m : str) :
  In (x :: m') (tails m) -> m' = [] \/ In m' (tails m).
Proof.
  induction m as [|y m IH]; simpl; [tauto|].
  intros [E | H].
  - injection E as -> ->. destruct m' as [|z m']; [now left|].
    right. right. simpl. now left.
  - destruct (IH H) as [-> | H']; [now left | right; now right].
Qed.

Lemma tails_self (m : str) : m = [] \/ In m (tails m).
Proof. destruct m; [now left | right; simpl; now left]. Qed.

Lemma contains_app_cases (m a t : str) :
  contains m (a ++ t) = true ->
  (exists n, In n (tails a) /\ startswith m (n ++ t) = true)
  \/ contains m t = true.
Proof.
  induction a as [|c a IH]; intros H; [now right|].
  change ((c :: a) ++ t) with (c :: (a ++ t)) in H.
  simpl in H. apply orb_true_iff in H as [H | H].
  - left. exists (c :: a). split; [simpl; now left | exact H].
  - destruct (IH H) as [(n & Hn & Hs) | Ht]; [|now right].
    left. exists n. split; [simpl; now right | exact Hs].
Qed.

Section Foreign.

Variables (old new m : str).
Hypothesis Hm : forall m', In m' (tails m) -> clash m' new = true.
Hypothesis Hn : forall n', In n' (tails new) -> clash m n' = true.

(** If a suffix of [m] starts the rewritten text, it starts the original
    text at the point the scan has reached. *)
Lemma startswith_replace_from (s : str) :
  forall (k : nat) (m' : str),
    m' = [] \/ In m' (tails m) ->
    startswith m' (replace_from old new k s) = true ->
    startswith m' (skipn k s) = true.
Proof.
  induction s as [|c s IH]; intros k m' Hm' H.
  - destruct k; exact H.
  - destruct k as [|k]; cbn [replace_from] in H.
    + cbn [skipn]. destruct Hm' as [-> | Hin]; [reflexivity|].
      destruct (startswith old (c :: s)).
      * rewrite (clash_startswith _ _ _ (Hm _ Hin)) in H. discriminate.
      * destruct m' as [|x m']; [reflexivity|].
        simpl in H. apply andb_true_iff in H as [Hx Hs].
        simpl. rewrite Hx. simpl.
        apply (IH 0%nat m' (tails_tl _ _ _ Hin) Hs).
    + cbn [skipn]. now apply IH.
Qed.

(** [replace] does not create an occurrence of [m]. *)
Lemma contains_replace_from (s : str) :
  forall k : nat,
    contains m (replace_from old new k s) = true ->
    contains m (skipn k s) = true.
Proof.
  induction s as [|c s IH]; intros k H.
  - destruct k; exact H.
  - destruct k as [|k]; cbn [replace_from] in H; cbn [skipn].
    + destruct (startswith old (c :: s)) eqn:E.
      * apply contains_app_cases in H as [(n & Hin & Hs) | H].
        -- rewrite (clash_startswith _ _ _ (Hn _ Hin)) in Hs. discriminate.
        -- apply contains_cons. eapply contains_skipn. apply IH, H.
      * simpl in H. apply orb_true_iff in H as [H | H].
        -- apply contains_here.
           apply (startswith_replace_from (c :: s) 0%nat m (tails_self m)).
           cbn [replace_from]. rewrite E. exact H.
        -- apply contains_cons. apply (IH 0%nat H).
    + now apply IH.
Qed.

End Foreign.

Lemma foreign_spec (m new : str) :
  foreign m new = true ->
  (forall m', In m' (tails m) -> clash m' new = true)
  /\ (forall n', In n' (tails new) -> clash m n' = true).
Proof.
  unfold foreign. intros H. apply andb_true_iff in H as [H1 H2].
  rewrite forallb_forall in H1, H2. split; assumption.
Qed.

Lemma replace_keeps_absent (old new m s : str) :
  old <> [] -> foreign m new = true ->
  contains m s = false -> contains m (replace old new s) = false.
Proof.
  intros Ho Hf Hs. destruct old as [|o old]; [contradiction|].
  apply foreign_spec in Hf as [H1 H2].
  cbn [replace].
  destruct (contains m (replace_from (o :: old) new 0 s)) eqn:E;
    [|reflexivity].
  apply (contains_replace_from (o :: old) new m H1 H2 s 0%nat) in E.
  cbn [skipn] in E. congruence.
Qed.

End StrFacts.

(** ** Lemmas on the filter loop *)

Module FilterFacts.

Lemma body_in_block (st : loop_state) (line : str) :
  0 < skip_lines st ->
  loop_body st line
  = mkLoop (skip_lines st - 1) (modified_lines st) (printed st).
Proof.
  intros H. unfold loop_body.
  apply Z.ltb_lt in H. now rewrite H.
Qed.

Lemma body_unmarked (st : loop_state) (line : str) :
  skip_lines st <= 0 -> unmarked line = true ->
  loop_body st line
  = mkLoop (skip_lines st) (modified_lines st ++ [substitute line])
           (printed st).
Proof.
  intros H U. unfold unmarked in U.
  apply andb_true_iff in U as [U U3]. apply andb_true_iff in U as [U1 U2].
  apply negb_true_iff in U1, U2, U3.
  unfold loop_body.
  replace (0 <? skip_lines st) with false by (symmetry; apply Z.ltb_ge, H).
  now rewrite U1, U2, U3.
Qed.

Lemma body_opens (st : loop_state) (line : str) :
  skip_lines st <= 0 -> opens_block line = true ->
  loop_body st line
  = mkLoop 3 (modified_lines st)
      (printed st
       ++ [lit "Dropping http option block starting with: " ++ strip line]).
Proof.
  intros H U. unfold opens_block in U.
  apply andb_true_iff in U as [U U3]. apply andb_true_iff in U as [U1 U2].
  apply negb_true_iff in U1, U2.
  unfold loop_body.
  replace (0 <? skip_lines st) with false by (symmetry; apply Z.ltb_ge, H).
  now rewrite U1, U2, U3.
Qed.

(** A line that is neither unmarked nor the head of a block is dropped and
    leaves the counter alone. *)
Lemma body_dropped (st : loop_state) (line : str) :
  skip_lines st <= 0 -> unmarked line = false -> opens_block line = false ->
  skip_lines (loop_body st line) = skip_lines st
  /\ modified_lines (loop_body st line) = modified_lines st.
Proof.
  intros H U O. unfold unmarked in U. unfold opens_block in O.
  unfold loop_body.
  replace (0 <? skip_lines st) with false by (symmetry; apply Z.ltb_ge, H).
  destruct (contains GOGOPROTO line); [now split|].
  destruct (contains ANNOTATIONS line); [now split|].
  destruct (contains HTTP_OPTION line); discriminate.
Qed.

Lemma glue_assoc (a b c : loop_state) :
  glue (glue a b) c = glue a (glue b c).
Proof. unfold glue; simpl. now rewrite !app_assoc. Qed.

Lemma glue_fresh (st : loop_state) : glue st (fresh (skip_lines st)) = st.
Proof. destruct st; unfold glue; simpl. now rewrite !app_nil_r. Qed.

(** The iteration reads nothing but the counter of the state. *)
Lemma body_glue (st : loop_state) (line : str) :
  loop_body st line = glue st (loop_body (fresh (skip_lines st)) line).
Proof.
  unfold loop_body, glue, fresh; simpl.
  destruct (0 <? skip_lines st); simpl; [now rewrite !app_nil_r|].
  destruct (contains GOGOPROTO line); simpl; [now rewrite !app_nil_r|].
  destruct (contains ANNOTATIONS line); simpl; [now rewrite !app_nil_r|].
  destruct (contains HTTP_OPTION line); simpl; now rewrite !app_nil_r.
Qed.

Lemma run_glue (lines : list str) :
  forall st, run_loop st lines = glue st (run_loop (fresh (skip_lines st)) lines).
Proof.
  induction lines as [|l ls IH]; intros st.
  - simpl. symmetry. apply glue_fresh.
  - unfold run_loop in *. cbn [fold_left].
    rewrite (IH (loop_body st l)).
    rewrite (IH (loop_body (fresh (skip_lines st)) l)).
    rewrite <- glue_assoc. rewrite <- body_glue.
    f_equal. now rewrite (body_glue st l).
Qed.

Lemma run_app (st : loop_state) (a b : list str) :
  run_loop st (a ++ b) = run_loop (run_loop st a) b.
Proof. apply fold_left_app. Qed.

Lemma main_filter_app (pre rest : list str) :
  main_filter (pre ++ rest)
  = main_filter pre
    ++ modified_lines
         (run_loop (fresh (skip_lines (run_loop loop_init pre))) rest).
Proof.
  unfold main_filter. rewrite run_app.
  now rewrite (run_glue rest (run_loop loop_init pre)).
Qed.

(** A block of three lines is jumped over, or what is left of the input. *)
Lemma run_block (rest : list str) :
  modified_lines (run_loop (fresh 3) rest) = main_filter (skipn 3 rest)
  /\ (forall a b c tl, rest = a :: b :: c :: tl ->
        run_loop (fresh 3) rest = run_loop (fresh 0) tl).
Proof.
  assert (B : forall k l, 0 < k -> loop_body (fresh k) l = fresh (k - 1)).
  { intros k l Hk. now rewrite body_in_block by exact Hk. }
  split.
  - destruct rest as [|a [|b [|c tl]]]; unfold run_loop; cbn [fold_left skipn];
      rewrite ?B by lia; reflexivity.
  - intros a b c tl ->. unfold run_loop; cbn [fold_left].
    rewrite !B by lia. reflexivity.
Qed.

Lemma firstn_snoc (lines : list str) :
  forall (i : nat) (l : str),
    nth_error lines i = Some l -> firstn (S i) lines = firstn i lines ++ [l].
Proof.
  induction lines as [|x xs IH]; intros [|i] l H; simpl in H; try discriminate.
  - now injection H as ->.
  - rewrite !firstn_cons, (IH i l H). reflexivity.
Qed.

Lemma state_before_S (lines : list str) (i : nat) (l : str) :
  nth_error lines i = Some l ->
  state_before lines (S i) = loop_body (state_before lines i) l.
Proof.
  intros H. unfold state_before. rewrite (firstn_snoc _ _ _ H).
  now rewrite run_app.
Qed.

Lemma state_before_end (lines : list str) (i : nat) :
  nth_error lines i = None ->
  state_before lines (S i) = state_before lines i.
Proof.
  intros H. apply nth_error_None in H. unfold state_before.
  rewrite !firstn_all2 by lia. reflexivity.
Qed.

Lemma appended_past_end (lines : list str) (i : nat) :
  nth_error lines i = None -> appended_at lines i = false.
Proof.
  intros H. unfold appended_at. rewrite (state_before_end _ _ H).
  now rewrite Nat.eqb_refl.
Qed.

Lemma body_skip_range (st : loop_state) (line : str) :
  0 <= skip_lines st <= 3 -> 0 <= skip_lines (loop_body st line) <= 3.
Proof.
  intros H. unfold loop_body.
  destruct (0 <? skip_lines st) eqn:E; simpl.
  - apply Z.ltb_lt in E. lia.
  - destruct (contains GOGOPROTO line); simpl; [exact H|].
    destruct (contains ANNOTATIONS line); simpl; [exact H|].
    destruct (contains HTTP_OPTION line); simpl; [lia | exact H].
Qed.

Lemma run_skip_range (lines : list str) :
  forall st, 0 <= skip_lines st <= 3 ->
             0 <= skip_lines (run_loop st lines) <= 3.
Proof.
  induction lines as [|l ls IH]; intros st H; [exact H|].
  apply (IH (loop_body st l)). now apply body_skip_range.
Qed.

Lemma skip_before_range (lines : list str) (i : nat) :
  0 <= skip_before lines i <= 3.
Proof. apply run_skip_range. simpl. lia. Qed.

Lemma appended_in_block (lines : list str) (i : nat) :
  0 < skip_before lines i -> appended_at lines i = false.
Proof.
  intros H. destruct (nth_error lines i) as [l|] eqn:E.
  - unfold appended_at. rewrite (state_before_S _ _ _ E).
    rewrite body_in_block by exact H. simpl. now rewrite Nat.eqb_refl.
  - now apply appended_past_end.
Qed.

Lemma skip_in_block (lines : list str) (i : nat) (l : str) :
  nth_error lines i = Some l -> 0 < skip_before lines i ->
  skip_before lines (S i) = skip_before lines i - 1.
Proof.
  intros E H. unfold skip_before. rewrite (state_before_S _ _ _ E).
  now rewrite body_in_block by exact H.
Qed.

Lemma split_at (lines : list str) (i : nat) (l : str) :
  nth_error lines i = Some l ->
  lines = firstn i lines ++ l :: skipn (S i) lines.
Proof.
  revert i; induction lines as [|x xs IH]; intros [|i] H; simpl in H;
    try discriminate.
  - now injection H as ->.
  - cbn [firstn skipn app]. f_equal. now apply IH.
Qed.

End FilterFacts.

(** ** The line filter: claims *)

Import StrFacts FilterFacts.

Lemma run_opens (t : str) (rest : list str) :
  opens_block t = true ->
  modified_lines (run_loop (fresh 0) (t :: rest)) = main_filter (skipn 3 rest).
Proof.
  intros H. unfold run_loop at 1. cbn [fold_left]. fold (run_loop (loop_body (fresh 0) t) rest).
  rewrite run_glue.
  rewrite (body_opens (fresh 0) t) by (simpl; first [lia | exact H]).
  cbn [glue skip_lines modified_lines app].
  apply run_block.
Qed.

Lemma appended_countdown (lines : list str) :
  forall (d j : nat),
    0 < skip_before lines j -> Z.of_nat d < skip_before lines j ->
    appended_at lines (j + d) = false.
Proof.
  induction d as [|d IH]; intros j Hpos Hd.
  - rewrite Nat.add_0_r. now apply appended_in_block.
  - destruct (nth_error lines j) as [l|] eqn:E.
    + replace (j + S d)%nat with (S j + d)%nat by lia.
      pose proof (skip_in_block _ _ _ E Hpos) as Hs.
      apply IH; rewrite Hs; lia.
    + apply appended_past_end. apply nth_error_None.
      apply nth_error_None in E. lia.
Qed.

(** C1, as stated, fails: an option line met inside an active block starts
    no block of its own, and an option line that carries the [gogoproto]
    marker is dropped alone.  In both inputs the line after the option line
    is written to the output. *)
Lemma option_line_without_block :
  (nth_error nested_option_lines 3
     = Some (nl "    option (google.api.http) = {")
   /\ contains HTTP_OPTION (nl "    option (google.api.http) = {") = true
   /\ appended_at nested_option_lines 4 = true
   /\ main_filter nested_option_lines
      = [nl "  rpc Put(PutRequest) returns (PutResponse) {}"])
  /\ (nth_error marked_option_lines 0
        = Some (nl "option (google.api.http) = { // gogoproto")
      /\ contains HTTP_OPTION (nl "option (google.api.http) = { // gogoproto")
         = true
      /\ appended_at marked_option_lines 1 = true
      /\ main_filter marked_option_lines = [nl "message RangeRequest {"]).
Proof. vm_compute. repeat split. Qed.

(** C1, amended: an option line that is reached with the counter at zero and
    carries neither drop marker takes itself and the next three lines out of
    the output; at the end of the input whatever is left goes, and the
    filter is defined on every input. *)
Theorem option_block_deleted (lines : list str) (i : nat) (l : str) :
  nth_error lines i = Some l ->
  skip_before lines i = 0 ->
  opens_block l = true ->
  (forall k, (k <= 3)%nat -> appended_at lines (i + k) = false)
  /\ main_filter lines
     = main_filter (firstn i lines) ++ main_filter (skipn (i + 4) lines).
Proof.
  intros E Hs Ho.
  assert (H3 : skip_before lines (S i) = 3).
  { unfold skip_before in *. rewrite (state_before_S _ _ _ E).
    now rewrite body_opens by (try exact Ho; lia). }
  split.
  - intros [|d] Hk.
    + rewrite Nat.add_0_r. unfold appended_at.
      rewrite (state_before_S _ _ _ E).
      unfold skip_before in Hs.
      rewrite body_opens by (try exact Ho; lia).
      simpl. now rewrite Nat.eqb_refl.
    + replace (i + S d)%nat with (S i + d)%nat by lia.
      apply appended_countdown; rewrite H3; lia.
  - rewrite (split_at _ _ _ E) at 1.
    rewrite main_filter_app.
    unfold skip_before, state_before in Hs. rewrite Hs.
    rewrite (run_opens _ _ Ho), skipn_skipn.
    now replace (3 + S i)%nat with (i + 4)%nat by lia.
Qed.

Lemma option_block_deleted_witness :
  nth_error example_rpc_proto 6 = Some (nl "      option (google.api.http) = {")
  /\ skip_before example_rpc_proto 6 = 0
  /\ opens_block (nl "      option (google.api.http) = {") = true
  /\ ((forall k, (k <= 3)%nat -> appended_at example_rpc_proto (6 + k) = false)
      /\ main_filter example_rpc_proto
         = main_filter (firstn 6 example_rpc_proto)
           ++ main_filter (skipn (6 + 4) example_rpc_proto)).
Proof.
  split; [reflexivity|]. split; [reflexivity|]. split; [reflexivity|].
  apply (option_block_deleted example_rpc_proto 6
           (nl "      option (google.api.http) = {"));
    reflexivity.
Defined.

Lemma substitute_keeps_absent (m line : str) :
  foreign m KV_NEW = true -> foreign m AUTH_NEW = true ->
  contains m line = false -> contains m (substitute line) = false.
Proof.
  intros Hk Ha H. unfold substitute.
  apply replace_keeps_absent; [discriminate | exact Ha |].
  apply replace_keeps_absent; [discriminate | exact Hk | exact H].
Qed.

Lemma run_output_all (P : str -> Prop) :
  (forall line, unmarked line = true -> P (substitute line)) ->
  forall lines st,
    Forall P (modified_lines st) ->
    Forall P (modified_lines (run_loop st lines)).
Proof.
  intros HP. induction lines as [|l ls IH]; intros st H; [exact H|].
  apply (IH (loop_body st l)).
  unfold loop_body.
  destruct (0 <? skip_lines st); [exact H|].
  destruct (contains GOGOPROTO l) eqn:E1; [exact H|].
  destruct (contains ANNOTATIONS l) eqn:E2; [exact H|].
  destruct (contains HTTP_OPTION l) eqn:E3; [exact H|].
  simpl. apply Forall_app. split; [exact H|].
  constructor; [|constructor].
  apply HP. unfold unmarked. now rewrite E1, E2, E3.
Qed.

(** C2: no line of the output of the filter contains [gogoproto] or
    [google/api/annotations.proto]; the two path replacements cannot put
    such a marker together from a line that had none. *)
Theorem markers_excluded (lines : list str) (line : str) :
  In line (main_filter lines) ->
  contains GOGOPROTO line = false /\ contains ANNOTATIONS line = false.
Proof.
  revert line. apply Forall_forall.
  apply run_output_all; [|constructor].
  intros l U. unfold unmarked in U.
  apply andb_true_iff in U as [U _]. apply andb_true_iff in U as [U1 U2].
  apply negb_true_iff in U1, U2.
  split; apply substitute_keeps_absent; try assumption; reflexivity.
Qed.

Lemma markers_excluded_witness :
  In import_kv_rewritten (main_filter example_rpc_proto)
  /\ contains GOGOPROTO import_kv_rewritten = false
  /\ contains ANNOTATIONS import_kv_rewritten = false.
Proof.
  assert (H : In import_kv_rewritten (main_filter example_rpc_proto)).
  { right. left. reflexivity. }
  exact (conj H (markers_excluded example_rpc_proto import_kv_rewritten H)).
Defined.

(** C3: a line that is reached with the counter at zero and carries no
    marker comes out as the result of the two [replace] calls, between the
    output for what precedes it and the output for what follows it; when it
    holds neither path it comes out as it is, and the [kv.proto] import of
    the schema comes out with the bare file name. *)
Theorem unmarked_line_substituted :
  (forall pre l rest,
      skip_lines (run_loop loop_init pre) = 0 ->
      unmarked l = true ->
      main_filter (pre ++ l :: rest)
      = main_filter pre
        ++ replace AUTH_OLD AUTH_NEW (replace KV_OLD KV_NEW l)
           :: main_filter rest)
  /\ (forall pre l rest,
         skip_lines (run_loop loop_init pre) = 0 ->
         unmarked l = true ->
         contains KV_OLD l = false -> contains AUTH_OLD l = false ->
         main_filter (pre ++ l :: rest)
         = main_filter pre ++ l :: main_filter rest)
  /\ main_filter [import_kv_line] = [import_kv_rewritten].
Proof.
  assert (A : forall pre l rest,
             skip_lines (run_loop loop_init pre) = 0 ->
             unmarked l = true ->
             main_filter (pre ++ l :: rest)
             = main_filter pre ++ substitute l :: main_filter rest).
  { intros pre l rest Hs U.
    rewrite main_filter_app, Hs. f_equal.
    unfold run_loop at 1. cbn [fold_left].
    fold (run_loop (loop_body (fresh 0) l) rest).
    rewrite run_glue.
    rewrite (body_unmarked (fresh 0) l) by (simpl; first [lia | exact U]).
    reflexivity. }
  split; [exact A|]. split; [|reflexivity].
  intros pre l rest Hs U Hk Ha. rewrite (A pre l rest Hs U).
  unfold substitute.
  rewrite (replace_absent KV_OLD KV_NEW l Hk).
  now rewrite (replace_absent AUTH_OLD AUTH_NEW l Ha).
Qed.

Lemma unmarked_line_substituted_witness :
  skip_lines (run_loop loop_init [nl "syntax = proto3;"]) = 0
  /\ unmarked import_kv_line = true
  /\ main_filter ([nl "syntax = proto3;"] ++ import_kv_line :: [nl "service KV {"])
     = main_filter [nl "syntax = proto3;"]
       ++ replace AUTH_OLD AUTH_NEW (replace KV_OLD KV_NEW import_kv_line)
          :: main_filter [nl "service KV {"].
Proof.
  split; [reflexivity|]. split; [reflexivity|].
  apply (proj1 unmarked_line_substituted); reflexivity.
Defined.

(** C4, as stated, fails: the output of the substitution can hold an old
    path again, and a second application then changes it. *)
Lemma substitution_output_changes_again :
  contains KV_OLD (substitute doubled_path_line) = true
  /\ substitute_lines [doubled_path_line] = [import_kv_line]
  /\ substitute_lines (substitute_lines [doubled_path_line])
     = [import_kv_rewritten]
  /\ substitute_lines (substitute_lines [doubled_path_line])
     <> substitute_lines [doubled_path_line].
Proof.
  split; [reflexivity|]. split; [reflexivity|]. split; [reflexivity|].
  intros H. vm_compute in H. discriminate H.
Qed.

(** C4, amended: on lines that hold neither old path the substitution
    changes nothing, so applying it to them any number of times gives the
    same lines. *)
Theorem substitution_fixes_rewritten (lines : list str) :
  (forall l, In l lines ->
             contains KV_OLD l = false /\ contains AUTH_OLD l = false) ->
  substitute_lines lines = lines
  /\ substitute_lines (substitute_lines lines) = substitute_lines lines.
Proof.
  intros H.
  assert (E : substitute_lines lines = lines).
  { unfold substitute_lines. rewrite <- (map_id lines) at 2.
    apply map_ext_in. intros l Hl. destruct (H l Hl) as [Hk Ha].
    unfold substitute.
    rewrite (replace_absent KV_OLD KV_NEW l Hk).
    apply (replace_absent AUTH_OLD AUTH_NEW l Ha). }
  split; [exact E | now rewrite E].
Qed.

Lemma substitution_fixes_rewritten_witness :
  (forall l, In l (substitute_lines [import_kv_line]) ->
             contains KV_OLD l = false /\ contains AUTH_OLD l = false)
  /\ substitute_lines (substitute_lines [import_kv_line])
     = substitute_lines [import_kv_line].
Proof.
  assert (H : forall l, In l (substitute_lines [import_kv_line]) ->
                        contains KV_OLD l = false /\ contains AUTH_OLD l = false).
  { intros l [<- | []]. split; reflexivity. }
  split; [exact H|].
  exact (proj1 (substitution_fixes_rewritten
                  (substitute_lines [import_kv_line]) H)).
Defined.

(** C9: the skip counter stays between 0 and 3; while it is positive each
    line read lowers it by one and adds nothing to the output; at zero it
    stays at zero unless the line read opens an option block, which sets it
    to 3. *)
Theorem skip_counter_invariant (lines : list str) (i : nat) :
  0 <= skip_before lines i <= 3
  /\ skip_before lines 0 = 0
  /\ forall l, nth_error lines i = Some l ->
       (0 < skip_before lines i ->
          skip_before lines (S i) = skip_before lines i - 1
          /\ appended_at lines i = false)
       /\ (skip_before lines i = 0 ->
           skip_before lines (S i) = (if opens_block l then 3 else 0)
           /\ (opens_block l = true -> contains HTTP_OPTION l = true)).
Proof.
  split; [apply skip_before_range|]. split; [reflexivity|].
  intros l E. split.
  - intros Hpos. split; [now apply skip_in_block with l
                        | now apply appended_in_block].
  - intros Hz. split.
    + unfold skip_before in *. rewrite (state_before_S _ _ _ E).
      destruct (opens_block l) eqn:O.
      * now rewrite body_opens by (try exact O; lia).
      * destruct (unmarked l) eqn:U.
        -- now rewrite body_unmarked by (try exact U; lia).
        -- destruct (body_dropped (state_before lines i) l) as [Hs _];
             try assumption; [lia | congruence].
    + unfold opens_block. intros O.
      now apply andb_true_iff in O as [_ O].
Qed.

Lemma skip_counter_invariant_witness :
  nth_error example_rpc_proto 7 = Some (nl "        post: /v3/kv/range")
  /\ 0 < skip_before example_rpc_proto 7
  /\ skip_before example_rpc_proto 8 = skip_before example_rpc_proto 7 - 1
  /\ appended_at example_rpc_proto 7 = false.
Proof.
  assert (E : nth_error example_rpc_proto 7
              = Some (nl "        post: /v3/kv/range")) by reflexivity.
  assert (P : 0 < skip_before example_rpc_proto 7) by reflexivity.
  split; [exact E|]. split; [exact P|].
  exact (proj1 (proj2 (proj2 (skip_counter_invariant example_rpc_proto 7))
                  _ E) P).
Defined.

(** C10: inside an active block a line is skipped whatever it contains, an
    option line included, and the counter goes on counting down; after the
    head of a block and three more lines the filter goes on as from the
    start. *)
Theorem option_blocks_do_not_stack :
  (forall lines j l,
      nth_error lines j = Some l ->
      0 < skip_before lines j ->
      contains HTTP_OPTION l = true ->
      skip_before lines (S j) = skip_before lines j - 1
      /\ skip_before lines (S j) < 3
      /\ appended_at lines j = false)
  /\ (forall pre t a b c rest,
         skip_lines (run_loop loop_init pre) = 0 ->
         opens_block t = true ->
         skip_lines (run_loop loop_init (pre ++ [t; a; b; c])) = 0
         /\ main_filter (pre ++ t :: a :: b :: c :: rest)
            = main_filter pre ++ main_filter rest).
Proof.
  split.
  - intros lines j l E Hpos _.
    pose proof (skip_in_block _ _ _ E Hpos) as Hs.
    pose proof (skip_before_range lines j) as Hr.
    split; [exact Hs|]. split; [lia | now apply appended_in_block].
  - intros pre t a b c rest Hs Ho. split.
    + rewrite run_app. unfold run_loop at 1. cbn [fold_left].
      rewrite (body_opens _ t) by (try exact Ho; lia).
      rewrite !body_in_block by (simpl; lia). reflexivity.
    + rewrite main_filter_app, Hs. f_equal.
      now rewrite (run_opens _ _ Ho).
Qed.

Lemma option_blocks_do_not_stack_witness :
  nth_error nested_option_lines 3
    = Some (nl "    option (google.api.http) = {")
  /\ 0 < skip_before nested_option_lines 3
  /\ contains HTTP_OPTION (nl "    option (google.api.http) = {") = true
  /\ (skip_before nested_option_lines 4 = skip_before nested_option_lines 3 - 1
      /\ skip_before nested_option_lines 4 < 3
      /\ appended_at nested_option_lines 3 = false).
Proof.
  split; [reflexivity|]. split; [reflexivity|]. split; [reflexivity|].
  apply (proj1 option_blocks_do_not_stack nested_option_lines 3%nat
           (nl "    option (google.api.http) = {"));
    reflexivity.
Defined.

(** ** The pipeline: lemmas *)

Module PipelineFacts.

Lemma bind_ok {A B} (c : M A) (k : A -> M B) (w w' : World) (a : A) :
  c w = (Ok a, w') -> bind c k w = k a w'.
Proof. intros H. unfold bind. now rewrite H. Qed.

Lemma bind_exit {A B} (c : M A) (k : A -> M B) (w w' : World) (code : Z) :
  c w = (SystemExit code, w') -> bind c k w = (SystemExit code, w').
Proof. intros H. unfold bind. now rewrite H. Qed.

(** Two paths under the same directory differ when their last parts do. *)
Lemma joinpath_neq (d a b : str) : a <> b -> joinpath d a <> joinpath d b.
Proof.
  unfold joinpath. intros H E. apply app_inv_head in E.
  apply app_inv_head in E. contradiction.
Qed.

Lemma joinpath_bak_neq (d a b : str) :
  a ++ lit ".bak" <> b -> joinpath d a ++ lit ".bak" <> joinpath d b.
Proof.
  unfold joinpath. intros H E. rewrite <- !app_assoc in E.
  apply app_inv_head in E. apply app_inv_head in E. contradiction.
Qed.

Section Paths.

Variable env : Env.

Lemma pb2_neq_grpc : RPC_PB2_FILE env <> RPC_PB2_GRPC_FILE env.
Proof. apply joinpath_neq. discriminate. Qed.

Lemma pb2_bak_neq_grpc :
  RPC_PB2_FILE env ++ lit ".bak" <> RPC_PB2_GRPC_FILE env.
Proof. apply joinpath_bak_neq. discriminate. Qed.

Lemma init_neq_pb2 :
  joinpath (ETCDRPC_DIR env) (lit "__init__.py") <> RPC_PB2_FILE env.
Proof. apply joinpath_neq. discriminate. Qed.

Lemma init_neq_grpc :
  joinpath (ETCDRPC_DIR env) (lit "__init__.py") <> RPC_PB2_GRPC_FILE env.
Proof. apply joinpath_neq. discriminate. Qed.

End Paths.

Lemma lookup_remove_same (l : list (str * list str)) (p : str) :
  lookup (remove_file l p) p = None.
Proof.
  induction l as [|[k v] l IH]; [reflexivity|].
  unfold remove_file in *. cbn [filter fst].
  destruct (Str.eqb k p) eqn:E; cbn [negb]; [exact IH|].
  cbn [lookup]. destruct (Str.eqb p k) eqn:E'; [|exact IH].
  apply StrFacts.eqb_eq in E'. subst k.
  now rewrite StrFacts.eqb_refl in E.
Qed.

Lemma lookup_remove_other (l : list (str * list str)) (p q : str) :
  q <> p -> lookup (remove_file l p) q = lookup l q.
Proof.
  intros H. induction l as [|[k v] l IH]; [reflexivity|].
  unfold remove_file in *. cbn [filter fst].
  destruct (Str.eqb k p) eqn:E; cbn [negb lookup].
  - apply StrFacts.eqb_eq in E. subst k.
    now rewrite (StrFacts.eqb_neq q p H).
  - now rewrite IH.
Qed.

Lemma files_set_file_same (f : FS) (p : str) (c : option (list str)) :
  files (set_file f p c) p = c.
Proof.
  destruct c as [c|]; unfold files, set_file; cbn [file_list lookup].
  - now rewrite StrFacts.eqb_refl.
  - apply lookup_remove_same.
Qed.

Lemma files_set_file_other (f : FS) (p q : str) (c : option (list str)) :
  q <> p -> files (set_file f p c) q = files f q.
Proof.
  intros H. destruct c as [c|]; unfold files, set_file; cbn [file_list lookup].
  - rewrite (StrFacts.eqb_neq q p H). now apply lookup_remove_other.
  - now apply lookup_remove_other.
Qed.

Lemma dirs_set_file (f : FS) (p : str) (c : option (list str)) :
  dirs (set_file f p c) = dirs f.
Proof. now destruct c. Qed.

Lemma files_unlink_other (f : FS) (p q : str) :
  q <> p -> files (unlink f p) q = files f q.
Proof.
  intros H. unfold unlink. destruct (files f p); [|reflexivity].
  destruct (dirs f p); [reflexivity|]. now apply files_set_file_other.
Qed.

Lemma dirs_unlink (f : FS) (p : str) : dirs (unlink f p) = dirs f.
Proof.
  unfold unlink. destruct (files f p); [|reflexivity].
  destruct (dirs f p); [reflexivity | apply dirs_set_file].
Qed.

(** [touch] in an existing directory succeeds and can only add the file
    it names. *)
Lemma touch_in_dir (parent path : str) (w : World) :
  dirs (fs w) parent = true ->
  exists w',
    touch_exist_ok parent path w = (Ok tt, w')
    /\ console w' = console w
    /\ dirs (fs w') = dirs (fs w)
    /\ forall q, q <> path -> files (fs w') q = files (fs w) q.
Proof.
  intros H. unfold touch_exist_ok.
  destruct (exists_ (fs w) path).
  - exists w. repeat split.
  - rewrite H. eexists. split; [reflexivity|]. repeat split.
    intros q Hq. now apply files_set_file_other.
Qed.

Lemma bak_neq (path : str) : path <> path ++ lit ".bak".
Proof.
  intros E. apply (f_equal (@List.length ascii)) in E.
  rewrite length_app in E. simpl in E. lia.
Qed.

(** [sed_inplace] on a file that is there, with no directory in the way of
    its backup. *)
Lemma sed_inplace_ok (path pat repl : str) (lines : list str) (w : World) :
  files (fs w) path = Some lines ->
  dirs (fs w) (path ++ lit ".bak") = false ->
  exists w',
    sed_inplace path pat repl w = (Ok tt, w')
    /\ console w' = console w
    /\ dirs (fs w') = dirs (fs w)
    /\ files (fs w') path = Some (map (re_sub_anchored pat repl) lines)
    /\ forall q, q <> path -> q <> path ++ lit ".bak" ->
                 files (fs w') q = files (fs w) q.
Proof.
  intros H Hb. unfold sed_inplace.
  rewrite (files_unlink_other (fs w) _ path (bak_neq path)), H.
  rewrite dirs_unlink, Hb.
  eexists. split; [reflexivity|]. cbn [fs console].
  split; [reflexivity|].
  split; [now rewrite !dirs_set_file, dirs_unlink|].
  split; [apply files_set_file_same|].
  intros q H1 H2.
  rewrite files_set_file_other by exact H1.
  rewrite files_set_file_other by exact H2.
  now apply files_unlink_other.
Qed.

(** [sed_inplace] on a file whose backup name is taken by a directory:
    the rename fails and the file keeps its lines. *)
Lemma sed_inplace_blocked (path pat repl : str) (lines : list str)
      (w : World) :
  files (fs w) path = Some lines ->
  dirs (fs w) (path ++ lit ".bak") = true ->
  exists w',
    sed_inplace path pat repl w = (Raise IsADirectoryError, w')
    /\ files (fs w') path = Some lines.
Proof.
  intros H Hb. unfold sed_inplace.
  rewrite (files_unlink_other (fs w) _ path (bak_neq path)), H.
  rewrite dirs_unlink, Hb.
  eexists. split; [reflexivity|]. cbn [fs].
  now rewrite (files_unlink_other (fs w) _ path (bak_neq path)).
Qed.

End PipelineFacts.

Module PatchFacts.

Import PipelineFacts.

Section Patch.

Variable env : Env.

Lemma patch_rpc_pb2_present (w : World) (lines : list str) :
  files (fs w) (RPC_PB2_FILE env) = Some lines ->
  dirs (fs w) (RPC_PB2_FILE env ++ lit ".bak") = false ->
  exists w',
    patch_rpc_pb2 env w = (Ok tt, w')
    /\ console w'
       = console w ++ [(Stdout, lit "Patching imports in " ++ RPC_PB2_FILE env)]
    /\ dirs (fs w') = dirs (fs w)
    /\ files (fs w') (RPC_PB2_FILE env) = Some (patched_pb2 lines)
    /\ forall q, q <> RPC_PB2_FILE env ->
                 q <> RPC_PB2_FILE env ++ lit ".bak" ->
                 files (fs w') q = files (fs w) q.
Proof.
  intros H Hb. unfold patch_rpc_pb2.
  rewrite (bind_ok _ _ w w true)
    by (unfold path_exists, exists_; now rewrite H).
  set (w1 := mkWorld (fs w)
               (console w
                ++ [(Stdout, lit "Patching imports in " ++ RPC_PB2_FILE env)])).
  rewrite (bind_ok _ _ w w1 tt) by reflexivity.
  destruct (sed_inplace_ok (RPC_PB2_FILE env) (lit "import auth_pb2")
              (lit "from etcd3.etcdrpc import auth_pb2") lines w1 H Hb)
    as (w2 & E2 & C2 & D2 & F2 & O2).
  rewrite (bind_ok _ _ _ _ _ E2).
  destruct (sed_inplace_ok (RPC_PB2_FILE env) (lit "import kv_pb2")
              (lit "from etcd3.etcdrpc import kv_pb2") _ w2 F2)
    as (w3 & E3 & C3 & D3 & F3 & O3); [now rewrite D2|].
  exists w3. split; [exact E3|].
  split; [now rewrite C3, C2|].
  split; [now rewrite D3, D2|].
  split; [exact F3|].
  intros q H1 H2. rewrite (O3 q H1 H2). now apply O2.
Qed.

Lemma patch_rpc_pb2_absent (w : World) :
  exists_ (fs w) (RPC_PB2_FILE env) = false ->
  patch_rpc_pb2 env w
  = (Ok tt,
     mkWorld (fs w)
       (console w
        ++ [(Stdout,
             lit "Warning: " ++ RPC_PB2_FILE env
             ++ lit " not found for patching.")])).
Proof.
  intros H. unfold patch_rpc_pb2.
  rewrite (bind_ok _ _ w w false)
    by (unfold path_exists; now rewrite H).
  reflexivity.
Qed.

Lemma patch_rpc_pb2_grpc_absent (w : World) :
  exists_ (fs w) (RPC_PB2_GRPC_FILE env) = false ->
  patch_rpc_pb2_grpc env w
  = (Ok tt,
     mkWorld (fs w)
       (console w
        ++ [(Stdout,
             lit "Warning: " ++ RPC_PB2_GRPC_FILE env
             ++ lit " not found for patching.")])).
Proof.
  intros H. unfold patch_rpc_pb2_grpc.
  rewrite (bind_ok _ _ w w false)
    by (unfold path_exists; now rewrite H).
  reflexivity.
Qed.

(** Whether [rpc_pb2.py] is there or not, its patch step ends normally as
    long as no directory stands at the path or at its backup name. *)
Lemma patch_rpc_pb2_total (w : World) :
  dirs (fs w) (RPC_PB2_FILE env) = false ->
  dirs (fs w) (RPC_PB2_FILE env ++ lit ".bak") = false ->
  exists w',
    patch_rpc_pb2 env w = (Ok tt, w')
    /\ (exists msgs, console w' = console w ++ msgs)
    /\ dirs (fs w') = dirs (fs w)
    /\ files (fs w') (RPC_PB2_FILE env)
       = option_map patched_pb2 (files (fs w) (RPC_PB2_FILE env))
    /\ forall q, q <> RPC_PB2_FILE env ->
                 q <> RPC_PB2_FILE env ++ lit ".bak" ->
                 files (fs w') q = files (fs w) q.
Proof.
  intros D Db. destruct (files (fs w) (RPC_PB2_FILE env)) as [lines|] eqn:E.
  - destruct (patch_rpc_pb2_present w lines E Db)
      as (w' & P & C & D' & F & O).
    exists w'. split; [exact P|]. split; [eexists; exact C|].
    split; [exact D'|]. split; [exact F | exact O].
  - eexists. split.
    + apply patch_rpc_pb2_absent. unfold exists_. now rewrite E.
    + cbn [fs console]. split; [eexists; reflexivity|].
      split; [reflexivity|]. split; [exact E | reflexivity].
Qed.

(** From the call of [subprocess.run] on, [main] goes on from the world
    that the steps before it have left. *)
Lemma main_from_protoc (w w1 : World) :
  until_protoc env w = (Ok tt, w1) ->
  main env w
  = (result <- run env (protoc_command env) ;;
     _ <- check_result result ;;
     modify_generated env) w1.
Proof.
  intros H. unfold main, until_protoc in *.
  unfold bind at 1. unfold bind at 1 in H.
  destruct (import_protoc env w) as [[[]|c|e] wa]; try discriminate H.
  unfold bind at 1. unfold bind at 1 in H.
  destruct (modify_rpc_proto env wa) as [[[]|c|e] wb]; try discriminate H.
  unfold bind at 1. unfold bind at 1 in H.
  cbn [print] in *.
  unfold bind at 1. unfold bind at 1 in H.
  destruct (mkdir_exist_ok _ _ _) as [[[]|c|e] wc]; try discriminate H.
  unfold bind at 1. cbn [print] in *.
  injection H as <-.
  reflexivity.
Qed.

Lemma check_result_failed (r : ProcessResult) (w : World) :
  returncode r <> 0 ->
  check_result r w
  = (SystemExit (returncode r),
     mkWorld (fs w)
       (console w ++ [(Stdout, lit "protoc command failed:");
                      (Stdout, stdout r); (Stdout, stderr r)])).
Proof.
  intros H. unfold check_result.
  apply Z.eqb_neq in H. rewrite H. cbn.
  now rewrite <- !app_assoc.
Qed.

Lemma check_result_passed (r : ProcessResult) (w : World) :
  returncode r = 0 ->
  exists w',
    check_result r w = (Ok r, w')
    /\ fs w' = fs w
    /\ exists msgs, console w' = console w ++ (Stdout, stdout r) :: msgs.
Proof.
  intros H. unfold check_result. rewrite H. cbn.
  destruct (stderr r); cbn; eexists; (split; [reflexivity|]);
    (split; [reflexivity|]); cbn; rewrite <- ?app_assoc; eexists; reflexivity.
Qed.

End Patch.

End PatchFacts.

(** ** The pipeline: claims *)

Import PipelineFacts PatchFacts.

Lemma bind_print {B} (m : str) (k : unit -> M B) (w : World) :
  bind (print m) k w = k tt (mkWorld (fs w) (console w ++ [(Stdout, m)])).
Proof. reflexivity. Qed.

Lemma bind_run {B} (env : Env) (cmd : list str) (k : ProcessResult -> M B)
      (w : World) (r : ProcessResult) (f : FS) :
  subprocess_run env cmd (fs w) = (r, f) ->
  bind (run env cmd) k w = k r (mkWorld f (console w)).
Proof. intros H. unfold bind, run. now rewrite H. Qed.

(** C5: when the generator returns a non-zero code, [main] prints the
    captured standard output and standard error, raises [SystemExit] with
    that code, and leaves the file system as the generator left it: no
    patch step runs.  The exit status of the script is that code reduced to
    one byte: the very code of the generator when it is an exit code, from
    1 to 255. *)
Theorem generator_failure_halts (env : Env) (w w1 : World)
        (r : ProcessResult) (f : FS) :
  until_protoc env w = (Ok tt, w1) ->
  subprocess_run env (protoc_command env) (fs w1) = (r, f) ->
  returncode r <> 0 ->
  main env w
  = (SystemExit (returncode r),
     mkWorld f
       (console w1 ++ [(Stdout, lit "protoc command failed:");
                       (Stdout, stdout r); (Stdout, stderr r)]))
  /\ exit_status (fst (main env w)) = returncode r mod 256
  /\ (0 < returncode r < 256 ->
      exit_status (fst (main env w)) = returncode r)
  /\ fs (snd (main env w)) = f.
Proof.
  intros Hu Hr Hc.
  assert (E : main env w
              = (SystemExit (returncode r),
                 mkWorld f
                   (console w1 ++ [(Stdout, lit "protoc command failed:");
                                   (Stdout, stdout r); (Stdout, stderr r)]))).
  { rewrite (main_from_protoc env w w1 Hu).
    rewrite (bind_run _ _ _ _ _ _ Hr).
    eapply bind_exit.
    now rewrite check_result_failed by exact Hc. }
  rewrite E. cbn [fst snd fs exit_status].
  split; [reflexivity|]. split; [reflexivity|]. split; [|reflexivity].
  intros Hb. apply Z.mod_small. lia.
Qed.

Lemma generator_failure_halts_witness :
  until_protoc env_protoc_fails example_world
  = (Ok tt, snd (until_protoc env_protoc_fails example_world))
  /\ returncode (mkResult 1 (lit "partial output")
                          (lit "rpc.proto: syntax error")) <> 0
  /\ 0 < returncode (mkResult 1 (lit "partial output")
                              (lit "rpc.proto: syntax error")) < 256
  /\ exit_status (fst (main env_protoc_fails example_world)) = 1
  /\ fs (snd (main env_protoc_fails example_world))
     = fs (snd (until_protoc env_protoc_fails example_world)).
Proof.
  assert (Hu : until_protoc env_protoc_fails example_world
               = (Ok tt, snd (until_protoc env_protoc_fails example_world)))
    by (vm_compute; reflexivity).
  assert (Hc : returncode (mkResult 1 (lit "partial output")
                                    (lit "rpc.proto: syntax error")) <> 0)
    by discriminate.
  assert (Hb : 0 < returncode (mkResult 1 (lit "partial output")
                                        (lit "rpc.proto: syntax error")) < 256)
    by (simpl; lia).
  destruct (generator_failure_halts env_protoc_fails _ _ _ _ Hu eq_refl Hc)
    as (_ & _ & Hs & Hf).
  split; [exact Hu|]. split; [exact Hc|]. split; [exact Hb|].
  split; [exact (Hs Hb) | exact Hf].
Defined.

(** C6: when the generator has returned 0 and [rpc_pb2_grpc.py] is not
    there, [main] prints the warning for it, leaves it absent, patches
    [rpc_pb2.py] if that file is there (every line goes through the two
    anchored substitutions), and returns normally: exit status 0.  No I/O
    error is to occur: the output directory is still in place, and no
    directory stands at the path of [rpc_pb2.py] or at its backup name
    [rpc_pb2.py.bak]. *)
Theorem missing_stub_is_warning (env : Env) (w w1 : World)
        (r : ProcessResult) (f : FS) :
  until_protoc env w = (Ok tt, w1) ->
  subprocess_run env (protoc_command env) (fs w1) = (r, f) ->
  returncode r = 0 ->
  dirs f (ETCDRPC_DIR env) = true ->
  dirs f (RPC_PB2_FILE env) = false ->
  dirs f (RPC_PB2_FILE env ++ lit ".bak") = false ->
  exists_ f (RPC_PB2_GRPC_FILE env) = false ->
  exists w2,
    main env w = (Ok tt, w2)
    /\ exit_status (fst (main env w)) = 0
    /\ In (Stdout,
           lit "Warning: " ++ RPC_PB2_GRPC_FILE env
           ++ lit " not found for patching.") (console w2)
    /\ files (fs w2) (RPC_PB2_GRPC_FILE env) = None
    /\ files (fs w2) (RPC_PB2_FILE env)
       = option_map
           (fun lines =>
              map (re_sub_anchored (lit "import kv_pb2")
                     (lit "from etcd3.etcdrpc import kv_pb2"))
                  (map (re_sub_anchored (lit "import auth_pb2")
                          (lit "from etcd3.etcdrpc import auth_pb2")) lines))
           (files f (RPC_PB2_FILE env)).
Proof.
  intros Hu Hr Hc Hd Hp Hpb Hg.
  assert (HgF : files f (RPC_PB2_GRPC_FILE env) = None
                /\ dirs f (RPC_PB2_GRPC_FILE env) = false).
  { unfold exists_ in Hg.
    destruct (files f (RPC_PB2_GRPC_FILE env)); [discriminate | now split]. }
  destruct HgF as [HgF HgD].
  rewrite (main_from_protoc env w w1 Hu).
  rewrite (bind_run _ _ _ _ _ _ Hr).
  destruct (check_result_passed r (mkWorld f (console w1)) Hc)
    as (wb & Eb & Fb & _).
  cbn [fs] in Fb.
  rewrite (bind_ok _ _ _ _ _ Eb).
  unfold modify_generated.
  destruct (touch_in_dir (ETCDRPC_DIR env)
              (joinpath (ETCDRPC_DIR env) (lit "__init__.py")) wb)
    as (wc & Ec & _ & Dc & Oc); [now rewrite Fb|].
  rewrite (bind_ok _ _ _ _ _ Ec).
  rewrite bind_print.
  set (wd := mkWorld (fs wc) _).
  destruct (patch_rpc_pb2_total env wd) as (we & Ee & _ & De & Fe & Oe).
  { subst wd. cbn [fs]. now rewrite Dc, Fb. }
  { subst wd. cbn [fs]. now rewrite Dc, Fb. }
  rewrite (bind_ok _ _ _ _ _ Ee).
  assert (Ge : files (fs we) (RPC_PB2_GRPC_FILE env) = None).
  { rewrite Oe.
    - subst wd. cbn [fs]. rewrite Oc; [now rewrite Fb|].
      intros E. now apply (init_neq_grpc env).
    - intros E. now apply (pb2_neq_grpc env).
    - intros E. now apply (pb2_bak_neq_grpc env). }
  assert (Xe : exists_ (fs we) (RPC_PB2_GRPC_FILE env) = false).
  { unfold exists_. rewrite Ge, De. subst wd. cbn [fs].
    now rewrite Dc, Fb. }
  rewrite (bind_ok _ _ _ _ _ (patch_rpc_pb2_grpc_absent env we Xe)).
  eexists. split; [reflexivity|]. cbn [fst fs console exit_status].
  split; [reflexivity|]. split.
  - apply in_or_app. left. apply in_or_app. right. now left.
  - split; [exact Ge|].
    rewrite Fe. subst wd. cbn [fs]. rewrite Oc; [now rewrite Fb|].
    intros E. symmetry in E. now apply (init_neq_pb2 env).
Qed.

Lemma missing_stub_is_warning_witness :
  exit_status (fst (main env_protoc_no_stub example_world)) = 0
  /\ files (fs (snd (main env_protoc_no_stub example_world)))
       (RPC_PB2_GRPC_FILE env_protoc_no_stub) = None
  /\ files (fs (snd (main env_protoc_no_stub example_world)))
       (RPC_PB2_FILE env_protoc_no_stub)
     = Some [ nl "import sys";
              nl "from etcd3.etcdrpc import auth_pb2 as auth__pb2";
              nl "from etcd3.etcdrpc import kv_pb2 as kv__pb2";
              nl "# generated from: import auth_pb2" ].
Proof.
  destruct (missing_stub_is_warning env_protoc_no_stub example_world
              (snd (until_protoc env_protoc_no_stub example_world))
              (mkResult 0 [] [])
              (set_file
                 (fs (snd (until_protoc env_protoc_no_stub example_world)))
                 (lit "/repo/src/etcd3/etcdrpc/rpc_pb2.py")
                 (Some example_rpc_pb2)))
    as (w2 & E & S & _ & G & P);
    try (vm_compute; reflexivity).
  rewrite E. cbn [fst snd]. rewrite E in S.
  split; [exact S|]. split; [exact G|].
  rewrite P. vm_compute. reflexivity.
Defined.

(** C7: [sed_inplace] rewrites a line only when the pattern stands at its
    start.  A line that begins with [import auth_pb2] gets the qualified
    import in place of that prefix; a line that has the text further in is
    left as it is; every line keeps its position, and the file has as many
    lines as before.  The file is rewritten when no directory stands at its
    backup name; when one does, [sed_inplace] raises and the file keeps
    its lines. *)
Theorem import_rewrite_anchored :
  (forall rest,
      re_sub_anchored (lit "import auth_pb2")
        (lit "from etcd3.etcdrpc import auth_pb2")
        (lit "import auth_pb2" ++ rest)
      = lit "from etcd3.etcdrpc import auth_pb2" ++ rest)
  /\ (forall pat repl line,
         startswith pat line = false -> re_sub_anchored pat repl line = line)
  /\ (forall pat repl line,
         re_sub_anchored pat repl line <> line -> startswith pat line = true)
  /\ (contains (lit "import auth_pb2") (nl "# generated from: import auth_pb2")
      = true
      /\ re_sub_anchored (lit "import auth_pb2")
           (lit "from etcd3.etcdrpc import auth_pb2")
           (nl "# generated from: import auth_pb2")
         = nl "# generated from: import auth_pb2")
  /\ (forall path pat repl lines w,
         files (fs w) path = Some lines ->
         dirs (fs w) (path ++ lit ".bak") = false ->
         exists w' lines',
           sed_inplace path pat repl w = (Ok tt, w')
           /\ files (fs w') path = Some lines'
           /\ List.length lines' = List.length lines
           /\ forall i, nth_error lines' i
                        = option_map (re_sub_anchored pat repl)
                            (nth_error lines i))
  /\ (forall path pat repl lines w,
         files (fs w) path = Some lines ->
         dirs (fs w) (path ++ lit ".bak") = true ->
         exists w',
           sed_inplace path pat repl w = (Raise IsADirectoryError, w')
           /\ files (fs w') path = Some lines)
  /\ (forall env w lines,
         files (fs w) (RPC_PB2_FILE env) = Some lines ->
         dirs (fs w) (RPC_PB2_FILE env ++ lit ".bak") = false ->
         exists w',
           patch_rpc_pb2 env w = (Ok tt, w')
           /\ files (fs w') (RPC_PB2_FILE env)
              = Some (map (re_sub_anchored (lit "import kv_pb2")
                             (lit "from etcd3.etcdrpc import kv_pb2"))
                        (map (re_sub_anchored (lit "import auth_pb2")
                                (lit "from etcd3.etcdrpc import auth_pb2"))
                           lines)))
  /\ patched_pb2 example_rpc_pb2
     = [ nl "import sys";
         nl "from etcd3.etcdrpc import auth_pb2 as auth__pb2";
         nl "from etcd3.etcdrpc import kv_pb2 as kv__pb2";
         nl "# generated from: import auth_pb2" ].
Proof.
  split.
  { intros rest. unfold re_sub_anchored.
    rewrite StrFacts.startswith_app.
    rewrite skipn_app, skipn_all, Nat.sub_diag. reflexivity. }
  split.
  { intros pat repl line H. unfold re_sub_anchored. now rewrite H. }
  split.
  { intros pat repl line H. unfold re_sub_anchored in H.
    destruct (startswith pat line); [reflexivity | now elim H]. }
  split; [split; reflexivity|].
  split.
  { intros path pat repl lines w H Hb.
    destruct (sed_inplace_ok path pat repl lines w H Hb)
      as (w' & E & _ & _ & F & _).
    exists w', (map (re_sub_anchored pat repl) lines).
    split; [exact E|]. split; [exact F|].
    split; [apply length_map|].
    intros i. apply nth_error_map. }
  split.
  { intros path pat repl lines w H Hb.
    apply (sed_inplace_blocked path pat repl lines w H Hb). }
  split; [|reflexivity].
  intros env w lines H Hb.
  destruct (patch_rpc_pb2_present env w lines H Hb)
    as (w' & E & _ & _ & F & _).
  exists w'. now split.
Qed.

Lemma import_rewrite_anchored_witness :
  startswith (lit "import auth_pb2") (nl "x = 'import auth_pb2'") = false
  /\ re_sub_anchored (lit "import auth_pb2")
       (lit "from etcd3.etcdrpc import auth_pb2") (nl "x = 'import auth_pb2'")
     = nl "x = 'import auth_pb2'".
Proof.
  split; [reflexivity|].
  apply (proj1 (proj2 import_rewrite_anchored)). reflexivity.
Defined.

(** C8, as stated, fails in its last part: a generator that returns 1 makes
    [main] end with the status that a missing [grpcio-tools] gives. *)
Lemma setup_status_shared_with_generator :
  grpc_tools_importable env_no_grpc_tools = false
  /\ exit_status (fst (main env_no_grpc_tools example_world)) = 1
  /\ fst (until_protoc env_protoc_fails example_world) = Ok tt
  /\ returncode
       (fst (subprocess_run env_protoc_fails
               (protoc_command env_protoc_fails)
               (fs (snd (until_protoc env_protoc_fails example_world)))))
     = 1
  /\ exit_status (fst (main env_protoc_fails example_world))
     = exit_status (fst (main env_no_grpc_tools example_world)).
Proof. vm_compute. repeat split. Qed.

(** C8, amended: without [grpcio-tools], [main] prints the two lines of
    instructions on standard error and raises [SystemExit(1)] with the file
    system untouched. *)
Theorem missing_toolchain_exits_1 (env : Env) (w : World) :
  grpc_tools_importable env = false ->
  main env w
  = (SystemExit 1,
     mkWorld (fs w)
       (console w
        ++ [(Stderr,
             lit "Error: 'grpcio-tools' is not installed or not found in the current environment.");
            (Stderr,
             lit "Please install the required dependencies by running: pip install -e .[protoc]")]))
  /\ exit_status (fst (main env w)) = 1
  /\ fs (snd (main env w)) = fs w.
Proof.
  intros H.
  assert (E : main env w
              = (SystemExit 1,
                 mkWorld (fs w)
                   (console w
                    ++ [(Stderr,
                         lit "Error: 'grpcio-tools' is not installed or not found in the current environment.");
                        (Stderr,
                         lit "Please install the required dependencies by running: pip install -e .[protoc]")]))).
  { unfold main. eapply bind_exit. unfold import_protoc. rewrite H.
    cbn. now rewrite <- app_assoc. }
  rewrite E. repeat split.
Qed.

Lemma missing_toolchain_exits_1_witness :
  grpc_tools_importable env_no_grpc_tools = false
  /\ exit_status (fst (main env_no_grpc_tools example_world)) = 1
  /\ fs (snd (main env_no_grpc_tools example_world)) = fs example_world.
Proof.
  split; [reflexivity|].
  exact (proj2 (missing_toolchain_exits_1 env_no_grpc_tools example_world
                  eq_refl)).
Defined.

(** ** Further properties of the line filter *)

Module FilterMore.

Import StrFacts FilterFacts.

Lemma main_filter_cons_unmarked (l : str) (rest : list str) :
  unmarked l = true ->
  main_filter (l :: rest) = substitute l :: main_filter rest.
Proof.
  intros U. unfold main_filter at 1.
  unfold run_loop. cbn [fold_left].
  fold (run_loop (loop_body loop_init l) rest).
  rewrite run_glue.
  rewrite (body_unmarked loop_init l) by (simpl; first [lia | exact U]).
  reflexivity.
Qed.

Lemma main_filter_cons_dropped (l : str) (rest : list str) :
  unmarked l = false -> opens_block l = false ->
  main_filter (l :: rest) = main_filter rest.
Proof.
  intros U O. unfold main_filter at 1.
  unfold run_loop. cbn [fold_left].
  fold (run_loop (loop_body loop_init l) rest).
  rewrite run_glue.
  destruct (body_dropped loop_init l) as [Hs Hm]; try assumption;
    [simpl; lia|].
  cbn [glue modified_lines]. rewrite Hs, Hm. reflexivity.
Qed.

Lemma main_filter_cons_opens (l : str) (rest : list str) :
  opens_block l = true ->
  main_filter (l :: rest) = main_filter (skipn 3 rest).
Proof.
  intros O. unfold main_filter at 1.
  change loop_init with (fresh 0).
  now apply run_opens.
Qed.

End FilterMore.

(** ** Replacing a path by its own last part *)

Module SuffixFacts.

Import StrFacts.

Lemma tails_suffix (n a : str) :
  In n (tails a) -> exists pre, a = pre ++ n.
Proof.
  induction a as [|c a IH]; simpl; [tauto|].
  intros [<- | H].
  - now exists [].
  - destruct (IH H) as [pre ->]. now exists (c :: pre).
Qed.

Lemma tails_app (a m2 : str) : m2 = [] \/ In m2 (tails (a ++ m2)).
Proof.
  induction a as [|c a IH]; [apply tails_self|].
  destruct IH as [-> | H]; [now left | right; simpl; now right].
Qed.

Lemma startswith_app_cases (a x : str) :
  forall m,
    startswith m (a ++ x) = true ->
    startswith m a = true
    \/ exists m2, m = a ++ m2 /\ startswith m2 x = true.
Proof.
  induction a as [|c a IH]; intros m H.
  - right. now exists m.
  - destruct m as [|y m]; [now left|].
    simpl in H. apply andb_true_iff in H as [Hy Hm].
    apply Ascii.eqb_eq in Hy; subst y.
    destruct (IH m Hm) as [H1 | (m2 & -> & H2)].
    + left. simpl. now rewrite Ascii.eqb_refl.
    + right. now exists m2.
Qed.

Lemma startswith_weaken (m a x : str) :
  startswith m a = true -> startswith m (a ++ x) = true.
Proof.
  revert a; induction m as [|y m IH]; intros a H; [reflexivity|].
  destruct a as [|c a]; [discriminate|].
  simpl in *. apply andb_true_iff in H as [Hy Hm].
  now rewrite Hy, (IH a Hm).
Qed.

Lemma startswith_app_both (a m2 x : str) :
  startswith m2 x = true -> startswith (a ++ m2) (a ++ x) = true.
Proof.
  intros H. induction a as [|c a IH]; [exact H|].
  simpl. now rewrite Ascii.eqb_refl.
Qed.

Lemma contains_app_l (m pre t : str) :
  contains m t = true -> contains m (pre ++ t) = true.
Proof.
  intros H. induction pre as [|c pre IH]; [exact H|].
  now apply contains_cons.
Qed.

Section Suffix.

Variables (p new m : str).
Hypothesis Hne : p ++ new <> [].
Hypothesis Hm : forall m', In m' (tails m) -> clash m' new = true.

(** When the new text is the end of the old one, whatever is found in the
    rewritten string was in the original: the replacement only takes a
    piece out. *)
Lemma contains_replace_from_suffix (s : str) :
  forall k : nat,
    contains m (replace_from (p ++ new) new k s) = true ->
    contains m (skipn k s) = true.
Proof.
  induction s as [|c s IH]; intros k H.
  - destruct k; exact H.
  - destruct k as [|k]; cbn [replace_from] in H; cbn [skipn];
      [|now apply IH].
    destruct (startswith (p ++ new) (c :: s)) eqn:E.
    + pose proof (startswith_split _ _ E) as Hs.
      assert (Hk : skipn (List.length (p ++ new)) (c :: s)
                   = skipn (List.length (p ++ new) - 1) s).
      { destruct (p ++ new) as [|o old]; [now elim Hne|].
        cbn [List.length skipn]. now rewrite Nat.sub_1_r. }
      rewrite Hk in Hs. clear Hk.
      remember (skipn (List.length (p ++ new) - 1) s) as r eqn:Hr.
      apply contains_app_cases in H as [(n & Hin & Hn) | H].
      * destruct (tails_suffix _ _ Hin) as [pre Hpre].
        assert (Hn' : startswith m (n ++ r) = true).
        { apply startswith_app_cases in Hn as [H1 | (m2 & Em & H2)].
          - now apply startswith_weaken.
          - rewrite Em. apply startswith_app_both. rewrite Hr.
            apply (startswith_replace_from (p ++ new) new m Hm s _ m2);
              [|exact H2].
            rewrite Em. apply tails_app. }
        rewrite Hs.
        replace ((p ++ new) ++ r) with ((p ++ pre) ++ n ++ r)
          by (rewrite Hpre; now rewrite <- !app_assoc).
        now apply contains_app_l, contains_here.
      * rewrite Hs. apply contains_app_l. rewrite Hr. now apply IH.
    + simpl in H. apply orb_true_iff in H as [H | H].
      * apply contains_here.
        apply (startswith_replace_from (p ++ new) new m Hm (c :: s) 0%nat m
                 (tails_self m)).
        cbn [replace_from]. rewrite E. exact H.
      * apply contains_cons. apply (IH 0%nat H).
Qed.

End Suffix.

Lemma replace_suffix_keeps_absent (p new m s : str) :
  p ++ new <> [] ->
  forallb (fun m' => clash m' new) (tails m) = true ->
  contains m s = false ->
  contains m (replace (p ++ new) new s) = false.
Proof.
  intros Hne Hf Hs.
  rewrite forallb_forall in Hf.
  destruct (contains m (replace (p ++ new) new s)) eqn:E; [|reflexivity].
  assert (R : replace (p ++ new) new s = replace_from (p ++ new) new 0 s).
  { unfold replace. destruct (p ++ new); [now elim Hne | reflexivity]. }
  rewrite R in E.
  apply (contains_replace_from_suffix p new m Hne Hf s 0) in E.
  cbn [skipn] in E. congruence.
Qed.

(** The two replacements of the script take a directory prefix away. *)
Lemma substitute_keeps_absent_any (m line : str) :
  forallb (fun m' => clash m' KV_NEW) (tails m) = true ->
  forallb (fun m' => clash m' AUTH_NEW) (tails m) = true ->
  contains m line = false -> contains m (substitute line) = false.
Proof.
  intros Hk Ha H. unfold substitute.
  change AUTH_OLD with (lit "etcd/auth/authpb/" ++ AUTH_NEW).
  apply replace_suffix_keeps_absent; [discriminate | exact Ha |].
  change KV_OLD with (lit "etcd/mvcc/mvccpb/" ++ KV_NEW).
  apply replace_suffix_keeps_absent; [discriminate | exact Hk | exact H].
Qed.

End SuffixFacts.

(** ** The line filter: further properties *)

Import StrFacts FilterFacts FilterMore SuffixFacts.

Lemma body_accounting (st : loop_state) (l : str) :
  (List.length (modified_lines (loop_body st l))
   + List.length (printed (loop_body st l))
   <= S (List.length (modified_lines st) + List.length (printed st)))%nat.
Proof.
  unfold loop_body.
  destruct (0 <? skip_lines st); simpl; [lia|].
  destruct (contains GOGOPROTO l); simpl; [rewrite length_app; simpl; lia|].
  destruct (contains ANNOTATIONS l); simpl; [rewrite length_app; simpl; lia|].
  destruct (contains HTTP_OPTION l); simpl; rewrite length_app; simpl; lia.
Qed.

Lemma run_accounting (lines : list str) :
  forall st,
    (List.length (modified_lines (run_loop st lines))
     + List.length (printed (run_loop st lines))
     <= List.length (modified_lines st) + List.length (printed st)
        + List.length lines)%nat.
Proof.
  induction lines as [|l ls IH]; intros st; [simpl; lia|].
  unfold run_loop in *. cbn [fold_left List.length].
  specialize (IH (loop_body st l)).
  pose proof (body_accounting st l). lia.
Qed.

(** Every line read gives at most one line of output or one message on
    standard output, never both: the filter adds no line. *)
Theorem filter_accounting (lines : list str) :
  (List.length (main_filter lines)
   + List.length (printed (run_loop loop_init lines))
   <= List.length lines)%nat.
Proof. apply (run_accounting lines loop_init). Qed.

Lemma unmarked_or_dropped (l : str) :
  contains HTTP_OPTION l = false ->
  opens_block l = false
  /\ (unmarked l = true
      \/ unmarked l = false).
Proof.
  intros H. unfold opens_block. rewrite H.
  split; [now rewrite andb_false_r|].
  destruct (unmarked l); [now left | now right].
Qed.

Lemma run_skip_zero (lines : list str) :
  (forall l, In l lines -> contains HTTP_OPTION l = false) ->
  forall st, skip_lines st = 0 -> skip_lines (run_loop st lines) = 0.
Proof.
  induction lines as [|l ls IH]; intros H st Hs; [exact Hs|].
  unfold run_loop. cbn [fold_left]. apply IH.
  - intros x Hx. apply H. now right.
  - unfold loop_body.
    replace (0 <? skip_lines st) with false by now rewrite Hs.
    destruct (contains GOGOPROTO l); [exact Hs|].
    destruct (contains ANNOTATIONS l); [exact Hs|].
    rewrite (H l (or_introl eq_refl)). exact Hs.
Qed.

Lemma in_firstn (lines : list str) :
  forall (i : nat) (x : str), In x (firstn i lines) -> In x lines.
Proof.
  induction lines as [|l ls IH]; intros [|i] x H; simpl in H; try tauto.
  destruct H as [<- | H]; [now left | right; now apply (IH i)].
Qed.

Lemma filter_without_option_blocks_aux (lines : list str) :
  (forall l, In l lines -> contains HTTP_OPTION l = false) ->
  main_filter lines = map substitute (filter unmarked lines)
  /\ forall i, skip_before lines i = 0.
Proof.
  intros H. split.
  - induction lines as [|l ls IH]; [reflexivity|].
    destruct (unmarked_or_dropped l (H l (or_introl eq_refl))) as [O [U | U]].
    + rewrite (main_filter_cons_unmarked l ls U). cbn [filter].
      rewrite U. cbn [map]. f_equal. apply IH.
      intros x Hx. apply H. now right.
    + rewrite (main_filter_cons_dropped l ls U O). cbn [filter].
      rewrite U. apply IH. intros x Hx. apply H. now right.
  - intros i. unfold skip_before, state_before.
    apply run_skip_zero; [|reflexivity].
    intros l Hl. apply H. eapply in_firstn. exact Hl.
Qed.

(** On a schema without option lines the counter never leaves zero and the
    filter is a plain selection of the unmarked lines followed by the two
    replacements. *)
Theorem filter_without_option_blocks (lines : list str) :
  (forall l, In l lines -> contains HTTP_OPTION l = false) ->
  main_filter lines = map substitute (filter unmarked lines)
  /\ forall i, skip_before lines i = 0.
Proof. apply filter_without_option_blocks_aux. Qed.

Lemma filter_without_option_blocks_witness :
  (forall l, In l [nl "syntax = proto3;";
                   nl "option (gogoproto.marshaler_all) = true;";
                   import_kv_line] ->
             contains HTTP_OPTION l = false)
  /\ main_filter [nl "syntax = proto3;";
                  nl "option (gogoproto.marshaler_all) = true;";
                  import_kv_line]
     = map substitute
         (filter unmarked [nl "syntax = proto3;";
                           nl "option (gogoproto.marshaler_all) = true;";
                           import_kv_line]).
Proof.
  assert (H : forall l, In l [nl "syntax = proto3;";
                              nl "option (gogoproto.marshaler_all) = true;";
                              import_kv_line] ->
                        contains HTTP_OPTION l = false).
  { intros l [<- | [<- | [<- | []]]]; reflexivity. }
  split; [exact H|].
  exact (proj1 (filter_without_option_blocks _ H)).
Defined.

(** A schema whose lines carry no marker and none of the two old paths is
    written back as it was read. *)
Theorem clean_schema_unchanged (lines : list str) :
  (forall l, In l lines ->
             unmarked l = true
             /\ contains KV_OLD l = false /\ contains AUTH_OLD l = false) ->
  main_filter lines = lines.
Proof.
  intros H. induction lines as [|l ls IH]; [reflexivity|].
  destruct (H l (or_introl eq_refl)) as (U & Hk & Ha).
  rewrite (main_filter_cons_unmarked l ls U). f_equal.
  - unfold substitute. rewrite (replace_absent KV_OLD KV_NEW l Hk).
    apply (replace_absent AUTH_OLD AUTH_NEW l Ha).
  - apply IH. intros x Hx. apply H. now right.
Qed.

Lemma clean_schema_unchanged_witness :
  (forall l, In l clean_rpc_proto ->
             unmarked l = true
             /\ contains KV_OLD l = false /\ contains AUTH_OLD l = false)
  /\ main_filter clean_rpc_proto = clean_rpc_proto.
Proof.
  assert (H : forall l, In l clean_rpc_proto ->
                        unmarked l = true
                        /\ contains KV_OLD l = false
                        /\ contains AUTH_OLD l = false).
  { intros l [<- | [<- | [<- | [<- | []]]]]; repeat split. }
  split; [exact H|].
  exact (clean_schema_unchanged clean_rpc_proto H).
Defined.

Lemma substitute_unmarked (l : str) :
  unmarked l = true -> unmarked (substitute l) = true.
Proof.
  unfold unmarked. intros U.
  apply andb_true_iff in U as [U U3]. apply andb_true_iff in U as [U1 U2].
  apply negb_true_iff in U1, U2, U3.
  rewrite !substitute_keeps_absent_any; try assumption; reflexivity.
Qed.

Lemma all_unmarked_filter (lines : list str) :
  Forall (fun l => unmarked l = true) lines ->
  main_filter lines = substitute_lines lines.
Proof.
  induction 1 as [|l ls U _ IH]; [reflexivity|].
  rewrite (main_filter_cons_unmarked l ls U). unfold substitute_lines.
  cbn [map]. f_equal. exact IH.
Qed.

(** No line of the output carries any of the three markers, the option
    marker included, so a second run of the filter drops nothing: it only
    applies the two replacements again. *)
Theorem refilter_only_substitutes (lines : list str) :
  Forall (fun line => unmarked line = true) (main_filter lines)
  /\ Forall (fun line => contains HTTP_OPTION line = false)
            (main_filter lines)
  /\ List.length (main_filter (main_filter lines))
     = List.length (main_filter lines)
  /\ main_filter (main_filter lines) = substitute_lines (main_filter lines).
Proof.
  assert (A : Forall (fun line => unmarked line = true) (main_filter lines)).
  { apply (run_output_all (fun line => unmarked line = true));
      [|constructor].
    intros l U. now apply substitute_unmarked. }
  split; [exact A|]. split.
  - eapply Forall_impl; [|exact A]. intros l U. unfold unmarked in U.
    apply andb_true_iff in U as [_ U]. now apply negb_true_iff in U.
  - rewrite (all_unmarked_filter _ A). split; [apply length_map | reflexivity].
Qed.

(** The filter is a single pass without lookahead: the output for the first
    lines of a file is the beginning of the output for the whole file. *)
Theorem filter_prefix_stable (pre rest : list str) :
  exists tail,
    main_filter (pre ++ rest) = main_filter pre ++ tail
    /\ (List.length tail <= List.length rest)%nat.
Proof.
  eexists. split; [apply main_filter_app|].
  pose proof (run_accounting rest
                (fresh (skip_lines (run_loop loop_init pre)))) as H.
  simpl in H. lia.
Qed.

(** A line is written to the output exactly when it is read with the
    counter at zero and carries none of the three markers. *)
Theorem appended_iff (lines : list str) (i : nat) :
  appended_at lines i = true
  <-> exists l, nth_error lines i = Some l
                /\ skip_before lines i = 0 /\ unmarked l = true.
Proof.
  split.
  - intros H. destruct (nth_error lines i) as [l|] eqn:E.
    2:{ rewrite (appended_past_end lines i E) in H. discriminate. }
    exists l. split; [reflexivity|].
    pose proof (skip_before_range lines i) as R.
    assert (Z0 : skip_before lines i = 0).
    { destruct (Z.eq_dec (skip_before lines i) 0) as [?|N]; [assumption|].
      rewrite appended_in_block in H by lia. discriminate. }
    split; [exact Z0|].
    destruct (unmarked l) eqn:U; [reflexivity|].
    unfold appended_at in H. rewrite (state_before_S _ _ _ E) in H.
    unfold skip_before in Z0.
    destruct (opens_block l) eqn:O.
    + rewrite body_opens in H by (try exact O; lia).
      simpl in H. now rewrite Nat.eqb_refl in H.
    + destruct (body_dropped (state_before lines i) l) as [_ Hm];
        try assumption; [lia|].
      rewrite Hm, Nat.eqb_refl in H. discriminate.
  - intros (l & E & Z0 & U). unfold appended_at.
    rewrite (state_before_S _ _ _ E). unfold skip_before in Z0.
    rewrite body_unmarked by (try exact U; lia).
    cbn [modified_lines]. rewrite length_app. cbn [List.length].
    apply negb_true_iff, Nat.eqb_neq. lia.
Qed.

Lemma appended_iff_witness :
  (exists l, nth_error example_rpc_proto 1 = Some l
             /\ skip_before example_rpc_proto 1 = 0 /\ unmarked l = true)
  /\ appended_at example_rpc_proto 1 = true.
Proof.
  assert (H : exists l, nth_error example_rpc_proto 1 = Some l
                        /\ skip_before example_rpc_proto 1 = 0
                        /\ unmarked l = true).
  { exists import_kv_line. repeat split. }
  split; [exact H|].
  exact (proj2 (appended_iff example_rpc_proto 1) H).
Defined.

Lemma run_output_from (P : str -> Prop) (lines : list str) :
  forall st,
    (forall l, In l lines -> unmarked l = true -> P (substitute l)) ->
    Forall P (modified_lines st) ->
    Forall P (modified_lines (run_loop st lines)).
Proof.
  induction lines as [|l ls IH]; intros st HP H; [exact H|].
  apply (IH (loop_body st l)); [intros x Hx; apply HP; now right|].
  unfold loop_body.
  destruct (0 <? skip_lines st); [exact H|].
  destruct (contains GOGOPROTO l) eqn:E1; [exact H|].
  destruct (contains ANNOTATIONS l) eqn:E2; [exact H|].
  destruct (contains HTTP_OPTION l) eqn:E3; [exact H|].
  simpl. apply Forall_app. split; [exact H|].
  constructor; [|constructor].
  apply HP; [now left|]. unfold unmarked. now rewrite E1, E2, E3.
Qed.

(** The filter invents nothing: every line of the output is the result of
    the two replacements on some unmarked line of the input. *)
Theorem output_lines_origin (lines : list str) (x : str) :
  In x (main_filter lines) ->
  exists l, In l lines /\ unmarked l = true /\ x = substitute l.
Proof.
  revert x. apply Forall_forall.
  apply run_output_from; [|constructor].
  intros l Hl U. now exists l.
Qed.

Lemma output_lines_origin_witness :
  In import_kv_rewritten (main_filter example_rpc_proto)
  /\ exists l, In l example_rpc_proto /\ unmarked l = true
               /\ import_kv_rewritten = substitute l.
Proof.
  assert (H : In import_kv_rewritten (main_filter example_rpc_proto)).
  { right. left. reflexivity. }
  exact (conj H (output_lines_origin example_rpc_proto import_kv_rewritten H)).
Defined.

Section ReplaceMeasure.

Variables (o : ascii) (old new : str).

Lemma replace_from_step (s : str) :
  (s = [] /\ replace_from (o :: old) new 0 s = [])
  \/ (exists r, s = (o :: old) ++ r
                /\ replace_from (o :: old) new 0 s
                   = new ++ replace_from (o :: old) new 0 r)
  \/ (exists c s', s = c :: s'
                   /\ replace_from (o :: old) new 0 s
                      = c :: replace_from (o :: old) new 0 s').
Proof.
  destruct s as [|c s]; [now left|]. right.
  destruct (startswith (o :: old) (c :: s)) eqn:E.
  - left. exists (skipn (List.length (o :: old)) (c :: s)).
    pose proof (startswith_split _ _ E) as Hs.
    split; [exact Hs|]. rewrite Hs at 1. apply replace_from_here.
  - right. exists c, s. split; [reflexivity|].
    cbn [replace_from]. now rewrite E.
Qed.

Lemma replace_from_length (n : nat) :
  (List.length new <= List.length (o :: old))%nat ->
  forall s, (List.length s <= n)%nat ->
            (List.length (replace_from (o :: old) new 0 s)
             <= List.length s)%nat.
Proof.
  intros Hn. induction n as [|n IH]; intros s Hs.
  - destruct s; [simpl; lia | simpl in Hs; lia].
  - destruct (replace_from_step s)
      as [[-> ->] | [(r & -> & ->) | (c & s' & -> & ->)]].
    + simpl; lia.
    + rewrite !length_app in *. cbn [List.length] in *.
      specialize (IH r). lia.
    + cbn [List.length] in *. specialize (IH s'). lia.
Qed.

Lemma replace_from_count (a : ascii) (n : nat) :
  count_occ ascii_dec (o :: old) a = 0%nat ->
  count_occ ascii_dec new a = 0%nat ->
  forall s, (List.length s <= n)%nat ->
            count_occ ascii_dec (replace_from (o :: old) new 0 s) a
            = count_occ ascii_dec s a.
Proof.
  intros Ho Hn. induction n as [|n IH]; intros s Hs.
  - destruct s; [reflexivity | simpl in Hs; lia].
  - destruct (replace_from_step s)
      as [[-> ->] | [(r & -> & ->) | (c & s' & -> & ->)]].
    + reflexivity.
    + rewrite !count_occ_app, Ho, Hn.
      rewrite length_app in Hs. cbn [List.length] in Hs.
      rewrite (IH r) by lia. reflexivity.
    + cbn [List.length] in Hs. cbn [count_occ].
      rewrite (IH s') by lia. reflexivity.
Qed.

End ReplaceMeasure.

(** The two replacements keep the line structure of the file: they neither
    add nor remove a newline character, and they never make a line
    longer. *)
Theorem substitute_line_structure (line : str) :
  count_newlines (substitute line) = count_newlines line
  /\ (List.length (substitute line) <= List.length line)%nat.
Proof.
  unfold substitute, count_newlines. split.
  - unfold replace, AUTH_OLD, KV_OLD. cbn [lit list_ascii_of_string].
    erewrite replace_from_count; try reflexivity.
    erewrite replace_from_count; try reflexivity.
  - unfold replace, AUTH_OLD, KV_OLD. cbn [lit list_ascii_of_string].
    etransitivity.
    + eapply replace_from_length; [simpl; lia | reflexivity].
    + eapply replace_from_length; [simpl; lia | reflexivity].
Qed.

(** ** The import patch: further properties *)

Lemma re_sub_anchored_clash (pat repl text rest : str) :
  clash pat text = true ->
  re_sub_anchored pat repl (text ++ rest) = text ++ rest.
Proof.
  intros H. unfold re_sub_anchored.
  now rewrite (clash_startswith pat text rest H).
Qed.

Lemma re_sub_anchored_cases (pat repl line : str) :
  (startswith pat line = false /\ re_sub_anchored pat repl line = line)
  \/ (exists rest, re_sub_anchored pat repl line = repl ++ rest).
Proof.
  unfold re_sub_anchored. destruct (startswith pat line).
  - right. now eexists.
  - now left.
Qed.

(** A second pass of the patch finds nothing to rewrite: the qualified
    import does not begin with [import], so patching the generated modules
    again leaves them as they are. *)
Theorem import_patch_idempotent (lines : list str) :
  patched_pb2 (patched_pb2 lines) = patched_pb2 lines
  /\ map (re_sub_anchored (lit "import rpc_pb2")
            (lit "from etcd3.etcdrpc import rpc_pb2"))
         (map (re_sub_anchored (lit "import rpc_pb2")
                 (lit "from etcd3.etcdrpc import rpc_pb2")) lines)
     = map (re_sub_anchored (lit "import rpc_pb2")
              (lit "from etcd3.etcdrpc import rpc_pb2")) lines.
Proof.
  split.
  - unfold patched_pb2. rewrite !map_map. apply map_ext. intros l.
    destruct (re_sub_anchored_cases (lit "import auth_pb2")
                (lit "from etcd3.etcdrpc import auth_pb2") l)
      as [[Ha Ea] | [rest Ea]]; rewrite Ea.
    + destruct (re_sub_anchored_cases (lit "import kv_pb2")
                  (lit "from etcd3.etcdrpc import kv_pb2") l)
        as [[Hk Ek] | [rest Ek]]; rewrite Ek.
      * now rewrite Ea, Ek.
      * now rewrite !re_sub_anchored_clash by reflexivity.
    + now rewrite !re_sub_anchored_clash by reflexivity.
  - rewrite map_map. apply map_ext. intros l.
    destruct (re_sub_anchored_cases (lit "import rpc_pb2")
                (lit "from etcd3.etcdrpc import rpc_pb2") l)
      as [[Ha Ea] | [rest Ea]]; rewrite Ea.
    + exact Ea.
    + now rewrite re_sub_anchored_clash by reflexivity.
Qed.

(** The patch of [rpc_pb2.py] keeps the number of lines of the file and
    the number of newline characters of every line. *)
Theorem import_patch_line_structure (lines : list str) :
  List.length (patched_pb2 lines) = List.length lines
  /\ map count_newlines (patched_pb2 lines) = map count_newlines lines.
Proof.
  split; [unfold patched_pb2; now rewrite !length_map|].
  unfold patched_pb2. rewrite !map_map. apply map_ext. intros l.
  assert (N : forall pat repl x,
             count_newlines pat = 0%nat -> count_newlines repl = 0%nat ->
             count_newlines (re_sub_anchored pat repl x) = count_newlines x).
  { intros pat repl x Hp Hr. unfold re_sub_anchored.
    destruct (startswith pat x) eqn:E; [|reflexivity].
    rewrite (startswith_split _ _ E) at 2.
    unfold count_newlines in *. rewrite !count_occ_app, Hp, Hr.
    reflexivity. }
  rewrite !N by reflexivity. reflexivity.
Qed.

(** ** The pipeline: further properties *)

Module TreeFacts.

Import PipelineFacts.

Lemma under_neq (p q : str) : under p q = false -> q <> p.
Proof.
  unfold under. intros H E. subst q.
  now rewrite StrFacts.eqb_refl in H.
Qed.

Lemma under_retarget (src dst k : str) :
  under src k = true -> under dst (dst ++ skipn (List.length src) k) = true.
Proof.
  unfold under. intros H. apply orb_true_iff in H as [H | H].
  - apply StrFacts.eqb_eq in H. subst k.
    rewrite skipn_all, app_nil_r. now rewrite StrFacts.eqb_refl.
  - apply StrFacts.startswith_split in H.
    rewrite length_app in H. cbn [List.length] in H.
    rewrite H. rewrite <- app_assoc. cbn [app].
    rewrite skipn_app, skipn_all, Nat.sub_diag. cbn [skipn app].
    replace (dst ++ slash :: skipn (List.length src + 1) k)
      with ((dst ++ [slash]) ++ skipn (List.length src + 1) k)
      by now rewrite <- app_assoc.
    rewrite StrFacts.startswith_app. apply orb_true_r.
Qed.

Lemma files_rename_tree_other (f : FS) (src dst q : str) :
  under src q = false -> under dst q = false ->
  files (rename_tree f src dst) q = files f q.
Proof.
  intros Hs Hd. unfold files, rename_tree. cbn [file_list].
  induction (file_list f) as [|[k v] l IH]; [reflexivity|].
  cbn [map lookup fst snd]. rewrite IH. unfold retarget.
  destruct (under src k) eqn:U; [|reflexivity].
  assert (E1 : Str.eqb q (dst ++ skipn (List.length src) k) = false).
  { destruct (Str.eqb q (dst ++ skipn (List.length src) k)) eqn:E;
      [|reflexivity].
    apply StrFacts.eqb_eq in E. subst q.
    now rewrite (under_retarget src dst k U) in Hd. }
  assert (E2 : Str.eqb q k = false).
  { destruct (Str.eqb q k) eqn:E; [|reflexivity].
    apply StrFacts.eqb_eq in E. subst q. congruence. }
  now rewrite E1, E2.
Qed.

Lemma eqb_app_same (r x y : str) : Str.eqb (r ++ x) (r ++ y) = Str.eqb x y.
Proof.
  induction r as [|c r IH]; [reflexivity|].
  cbn [app Str.eqb]. now rewrite Ascii.eqb_refl.
Qed.

Lemma startswith_app_same (r x y : str) :
  startswith (r ++ x) (r ++ y) = startswith x y.
Proof.
  induction r as [|c r IH]; [reflexivity|].
  cbn [app startswith]. now rewrite Ascii.eqb_refl.
Qed.

Lemma under_app_same (r x y : str) : under (r ++ x) (r ++ y) = under x y.
Proof.
  unfold under. rewrite eqb_app_same, <- app_assoc.
  now rewrite startswith_app_same.
Qed.

End TreeFacts.

Module StepFacts.

Import PipelineFacts PatchFacts TreeFacts.

Lemma bind_raise {A B} (c : M A) (k : A -> M B) (w w' : World) (e : exn) :
  c w = (Raise e, w') -> bind c k w = (Raise e, w').
Proof. intros H. unfold bind. now rewrite H. Qed.

Lemma print_all_spec (msgs : list str) :
  forall w,
    print_all msgs w
    = (Ok tt, mkWorld (fs w) (console w ++ map (pair Stdout) msgs)).
Proof.
  induction msgs as [|m ms IH]; intros w.
  - simpl. unfold ret. rewrite app_nil_r. now destruct w.
  - cbn [print_all]. rewrite bind_print, IH. cbn [fs console map].
    now rewrite <- app_assoc.
Qed.

Lemma same_files_refl (paths : list str) (f : FS) :
  same_files_except paths f f.
Proof. intros q _. reflexivity. Qed.

Lemma same_files_trans (paths : list str) (f g h : FS) :
  same_files_except paths f g -> same_files_except paths g h ->
  same_files_except paths f h.
Proof. intros H1 H2 q Hq. rewrite (H2 q Hq). now apply H1. Qed.

Lemma same_files_incl (p1 p2 : list str) (f g : FS) :
  incl p1 p2 -> same_files_except p1 f g -> same_files_except p2 f g.
Proof. intros Hi H q Hq. apply H. intros p Hin. apply Hq, Hi, Hin. Qed.

Lemma same_files_set (paths : list str) (f : FS) (p : str)
      (c : option (list str)) :
  In p paths -> same_files_except paths f (set_file f p c).
Proof.
  intros Hp q Hq. apply files_set_file_other. apply under_neq. now apply Hq.
Qed.

Lemma same_files_unlink (paths : list str) (f : FS) (p : str) :
  In p paths -> same_files_except paths f (unlink f p).
Proof.
  intros Hp q Hq. apply files_unlink_other. apply under_neq. now apply Hq.
Qed.

Lemma same_files_rename (paths : list str) (f : FS) (src dst : str) :
  In src paths -> In dst paths ->
  same_files_except paths f (rename_tree f src dst).
Proof.
  intros Hs Hd q Hq. apply files_rename_tree_other; now apply Hq.
Qed.

Section Compose.

Context {A B : Type}.

Lemma touches_only_bind (paths : list str) (c : M A) (k : A -> M B) :
  touches_only paths c -> (forall a, touches_only paths (k a)) ->
  touches_only paths (bind c k).
Proof.
  intros Hc Hk w o w' H. unfold bind in H.
  destruct (c w) as [[a|code|e] w1] eqn:E.
  - eapply same_files_trans; [exact (Hc _ _ _ E) | exact (Hk a _ _ _ H)].
  - (apply (f_equal snd) in H; cbn [snd] in H; subst w'). exact (Hc _ _ _ E).
  - (apply (f_equal snd) in H; cbn [snd] in H; subst w'). exact (Hc _ _ _ E).
Qed.

Lemma never_exits_bind (c : M A) (k : A -> M B) :
  never_exits c -> (forall a, never_exits (k a)) -> never_exits (bind c k).
Proof.
  intros Hc Hk w code w' H. unfold bind in H.
  destruct (c w) as [[a|code'|e] w1] eqn:E.
  - exact (Hk a _ _ _ H).
  - exact (Hc _ _ _ E).
  - discriminate H.
Qed.

End Compose.

Lemma touches_only_incl {A} (p1 p2 : list str) (c : M A) :
  incl p1 p2 -> touches_only p1 c -> touches_only p2 c.
Proof.
  intros Hi H w o w' E. eapply same_files_incl; [exact Hi | exact (H _ _ _ E)].
Qed.

(** The primitive steps. *)

Lemma touches_ret {A} (paths : list str) (a : A) : touches_only paths (ret a).
Proof. intros w o w' H. (apply (f_equal snd) in H; cbn [snd] in H; subst w'). apply same_files_refl. Qed.

Lemma touches_print (paths : list str) (m : str) :
  touches_only paths (print m).
Proof. intros w o w' H. (apply (f_equal snd) in H; cbn [snd] in H; subst w'). apply same_files_refl. Qed.

Lemma touches_print_err (paths : list str) (m : str) :
  touches_only paths (print_err m).
Proof. intros w o w' H. (apply (f_equal snd) in H; cbn [snd] in H; subst w'). apply same_files_refl. Qed.

Lemma touches_sys_exit {A} (paths : list str) (code : Z) :
  touches_only paths (@sys_exit A code).
Proof. intros w o w' H. (apply (f_equal snd) in H; cbn [snd] in H; subst w'). apply same_files_refl. Qed.

Lemma touches_print_all (paths : list str) (msgs : list str) :
  touches_only paths (print_all msgs).
Proof.
  intros w o w' H. rewrite print_all_spec in H. (apply (f_equal snd) in H; cbn [snd] in H; subst w').
  apply same_files_refl.
Qed.

Lemma touches_read_lines (paths : list str) (p : str) :
  touches_only paths (read_lines p).
Proof.
  intros w o w' H. unfold read_lines in H.
  destruct (files (fs w) p); [|destruct (dirs (fs w) p)];
    (apply (f_equal snd) in H; cbn [snd] in H; subst w'); apply same_files_refl.
Qed.

Lemma touches_path_exists (paths : list str) (p : str) :
  touches_only paths (path_exists p).
Proof. intros w o w' H. (apply (f_equal snd) in H; cbn [snd] in H; subst w'). apply same_files_refl. Qed.

Lemma touches_write_lines (paths : list str) (p : str) (ls : list str) :
  In p paths -> touches_only paths (write_lines p ls).
Proof.
  intros Hp w o w' H. unfold write_lines in H.
  destruct (dirs (fs w) p); (apply (f_equal snd) in H; cbn [snd] in H; subst w');
    [apply same_files_refl | now apply same_files_set].
Qed.

Lemma touches_mkdir (paths : list str) (parent p : str) :
  touches_only paths (mkdir_exist_ok parent p).
Proof.
  intros w o w' H. unfold mkdir_exist_ok in H.
  destruct (dirs (fs w) p); [(apply (f_equal snd) in H; cbn [snd] in H; subst w'); apply same_files_refl|].
  destruct (files (fs w) p); [(apply (f_equal snd) in H; cbn [snd] in H; subst w'); apply same_files_refl|].
  destruct (dirs (fs w) parent);
    [(apply (f_equal snd) in H; cbn [snd] in H; subst w'); intros q _; reflexivity|].
  destruct (files (fs w) parent); (apply (f_equal snd) in H; cbn [snd] in H; subst w');
    apply same_files_refl.
Qed.

Lemma touches_touch (paths : list str) (parent p : str) :
  In p paths -> touches_only paths (touch_exist_ok parent p).
Proof.
  intros Hp w o w' H. unfold touch_exist_ok in H.
  destruct (exists_ (fs w) p); [(apply (f_equal snd) in H; cbn [snd] in H; subst w'); apply same_files_refl|].
  destruct (dirs (fs w) parent);
    [(apply (f_equal snd) in H; cbn [snd] in H; subst w'); now apply same_files_set|].
  destruct (files (fs w) parent); (apply (f_equal snd) in H; cbn [snd] in H; subst w');
    apply same_files_refl.
Qed.

Lemma touches_sed_inplace (paths : list str) (p pat repl : str) :
  In p paths -> In (p ++ lit ".bak") paths ->
  touches_only paths (sed_inplace p pat repl).
Proof.
  intros Hp Hb w o w' H. unfold sed_inplace in H.
  pose proof (same_files_unlink paths (fs w) _ Hb) as U.
  destruct (files (unlink (fs w) (p ++ lit ".bak")) p).
  - destruct (dirs (unlink (fs w) (p ++ lit ".bak")) (p ++ lit ".bak"));
      (apply (f_equal snd) in H; cbn [snd] in H; subst w'); cbn [fs]; [exact U|].
    eapply same_files_trans; [exact U|].
    eapply same_files_trans; now apply same_files_set.
  - destruct (dirs (unlink (fs w) (p ++ lit ".bak")) p).
    + destruct (dirs (unlink (fs w) (p ++ lit ".bak")) (p ++ lit ".bak")
                && negb (dir_empty (unlink (fs w) (p ++ lit ".bak"))
                           (p ++ lit ".bak")));
        (apply (f_equal snd) in H; cbn [snd] in H; subst w'); cbn [fs]; [exact U|].
      eapply same_files_trans; [exact U|]. now apply same_files_rename.
    + (apply (f_equal snd) in H; cbn [snd] in H; subst w'). exact U.
Qed.

Lemma never_exits_ret {A} (a : A) : never_exits (ret a).
Proof. intros w code w' H. discriminate H. Qed.

Lemma never_exits_print (m : str) : never_exits (print m).
Proof. intros w code w' H. discriminate H. Qed.

Lemma never_exits_print_all (msgs : list str) : never_exits (print_all msgs).
Proof. intros w code w' H. rewrite print_all_spec in H. discriminate H. Qed.

Lemma never_exits_path_exists (p : str) : never_exits (path_exists p).
Proof. intros w code w' H. discriminate H. Qed.

Lemma never_exits_read_lines (p : str) : never_exits (read_lines p).
Proof.
  intros w code w' H. unfold read_lines in H.
  destruct (files (fs w) p); [|destruct (dirs (fs w) p)]; discriminate H.
Qed.

Lemma never_exits_write_lines (p : str) (ls : list str) :
  never_exits (write_lines p ls).
Proof.
  intros w code w' H. unfold write_lines in H.
  destruct (dirs (fs w) p); discriminate H.
Qed.

Lemma never_exits_mkdir (parent p : str) :
  never_exits (mkdir_exist_ok parent p).
Proof.
  intros w code w' H. unfold mkdir_exist_ok in H.
  destruct (dirs (fs w) p); [discriminate H|].
  destruct (files (fs w) p); [discriminate H|].
  destruct (dirs (fs w) parent); [discriminate H|].
  destruct (files (fs w) parent); discriminate H.
Qed.

Lemma never_exits_touch (parent p : str) :
  never_exits (touch_exist_ok parent p).
Proof.
  intros w code w' H. unfold touch_exist_ok in H.
  destruct (exists_ (fs w) p); [discriminate H|].
  destruct (dirs (fs w) parent); [discriminate H|].
  destruct (files (fs w) parent); discriminate H.
Qed.

Lemma never_exits_sed_inplace (p pat repl : str) :
  never_exits (sed_inplace p pat repl).
Proof.
  intros w code w' H. unfold sed_inplace in H.
  destruct (files _ p); [destruct (dirs _ _); discriminate H|].
  destruct (dirs _ p); [|discriminate H].
  destruct (_ && _); discriminate H.
Qed.

End StepFacts.

Module MainFacts.

Import PipelineFacts PatchFacts StepFacts.

Ltac in_paths := cbn [In known_paths generated_paths]; auto 10.

Ltac touches :=
  repeat first
    [ apply touches_only_bind; [|intros ?]
    | apply touches_ret
    | apply touches_print
    | apply touches_print_err
    | apply touches_print_all
    | apply touches_sys_exit
    | apply touches_read_lines
    | apply touches_path_exists
    | apply touches_mkdir
    | apply touches_write_lines; in_paths
    | apply touches_touch; in_paths
    | apply touches_sed_inplace; in_paths ].

Ltac no_exit :=
  repeat first
    [ apply never_exits_bind; [|intros ?]
    | apply never_exits_ret
    | apply never_exits_print
    | apply never_exits_print_all
    | apply never_exits_read_lines
    | apply never_exits_path_exists
    | apply never_exits_mkdir
    | apply never_exits_write_lines
    | apply never_exits_touch
    | apply never_exits_sed_inplace ].

Section Main.

Variable env : Env.

Lemma touches_import_protoc (paths : list str) :
  touches_only paths (import_protoc env).
Proof.
  unfold import_protoc. destruct (grpc_tools_importable env); touches.
Qed.

Lemma touches_modify_rpc_proto :
  touches_only (known_paths env) (modify_rpc_proto env).
Proof. unfold modify_rpc_proto. touches. Qed.

Lemma touches_check_result (paths : list str) (r : ProcessResult) :
  touches_only paths (check_result r).
Proof.
  unfold check_result. destruct (negb (returncode r =? 0)); touches.
  destruct (stderr r); touches.
Qed.

Lemma touches_modify_generated_only :
  touches_only (generated_paths env) (modify_generated env).
Proof.
  unfold modify_generated, patch_rpc_pb2, patch_rpc_pb2_grpc. touches.
  - match goal with e : bool |- _ => destruct e end; touches.
  - match goal with e : bool |- _ => destruct e end; touches.
Qed.

Lemma touches_modify_generated :
  touches_only (known_paths env) (modify_generated env).
Proof.
  unfold modify_generated, patch_rpc_pb2, patch_rpc_pb2_grpc. touches.
  - match goal with e : bool |- _ => destruct e end; touches.
  - match goal with e : bool |- _ => destruct e end; touches.
Qed.

Lemma never_exits_modify_generated : never_exits (modify_generated env).
Proof.
  unfold modify_generated, patch_rpc_pb2, patch_rpc_pb2_grpc. no_exit.
  - match goal with e : bool |- _ => destruct e end; no_exit.
  - match goal with e : bool |- _ => destruct e end; no_exit.
Qed.

Lemma never_exits_after_import :
  never_exits
    (modify_rpc_proto env ;;
     print (lit "--- Running protoc ---") ;;
     mkdir_exist_ok (joinpath (SRC_DIR env) (lit "etcd3")) (ETCDRPC_DIR env) ;;
     print (lit "Running: " ++ join (lit " ") (protoc_command env))).
Proof. unfold modify_rpc_proto. no_exit. Qed.

Lemma import_protoc_cases (w : World) :
  (grpc_tools_importable env = true /\ import_protoc env w = (Ok tt, w))
  \/ (grpc_tools_importable env = false
      /\ exists w', import_protoc env w = (SystemExit 1, w')
                    /\ fs w' = fs w).
Proof.
  unfold import_protoc. destruct (grpc_tools_importable env).
  - left. now split.
  - right. split; [reflexivity|]. eexists. split; reflexivity.
Qed.

Lemma until_protoc_exit (w w1 : World) (c : Z) :
  until_protoc env w = (SystemExit c, w1) ->
  grpc_tools_importable env = false /\ c = 1.
Proof.
  intros H. unfold until_protoc in H.
  destruct (import_protoc_cases w) as [[Hi E] | (Hi & w' & E & _)].
  - rewrite (bind_ok _ _ _ _ _ E) in H.
    now apply never_exits_after_import in H.
  - rewrite (bind_exit _ _ _ _ _ E) in H. injection H as <- _. now split.
Qed.

(** What [main] does once the steps before [subprocess.run] have ended. *)
Lemma main_until_cases (w w1 : World) (o : outcome unit) :
  until_protoc env w = (o, w1) ->
  match o with
  | Ok _ =>
      main env w
      = (result <- run env (protoc_command env) ;;
         _ <- check_result result ;;
         modify_generated env) w1
  | SystemExit c => main env w = (SystemExit c, w1)
  | Raise e => main env w = (Raise e, w1)
  end.
Proof.
  intros H.
  destruct o as [[]|c0|e0]; unfold main, until_protoc in *;
    (unfold bind at 1; unfold bind at 1 in H;
     destruct (import_protoc env w) as [[[]|c|e] wa];
     try discriminate H; try (injection H as <- <-; reflexivity);
     unfold bind at 1; unfold bind at 1 in H;
     destruct (modify_rpc_proto env wa) as [[[]|c|e] wb];
     try discriminate H; try (injection H as <- <-; reflexivity);
     unfold bind at 1; unfold bind at 1 in H;
     cbn [print] in *;
     unfold bind at 1; unfold bind at 1 in H;
     destruct (mkdir_exist_ok _ _ _) as [[[]|c|e] wc];
     try discriminate H; try (injection H as <- <-; reflexivity);
     try (unfold bind at 1); cbn [print] in *;
     try discriminate H).
  injection H as <-. reflexivity.
Qed.

End Main.

End MainFacts.

Import PipelineFacts PatchFacts StepFacts MainFacts.

Lemma modify_rpc_proto_ok (env : Env) (w w' : World) :
  modify_rpc_proto env w = (Ok tt, w') ->
  exists lines,
    files (fs w) (RPC_PROTO_FILE env) = Some lines
    /\ fs w' = set_file (fs w) (RPC_PROTO_FILE env) (Some (main_filter lines))
    /\ console w'
       = console w
         ++ [(Stdout, lit "--- Modifying rpc.proto before generation ---")]
         ++ map (pair Stdout) (printed (run_loop loop_init lines)).
Proof.
  unfold modify_rpc_proto. rewrite bind_print.
  unfold bind at 1. unfold read_lines. cbn [fs console].
  destruct (files (fs w) (RPC_PROTO_FILE env)) as [lines|];
    [|destruct (dirs (fs w) (RPC_PROTO_FILE env)); discriminate].
  unfold bind at 1. rewrite print_all_spec. cbn [fs console].
  unfold write_lines. cbn [fs console].
  destruct (dirs (fs w) (RPC_PROTO_FILE env)); [discriminate|].
  intros H. injection H as <-. exists lines.
  split; [reflexivity|]. split; [reflexivity|].
  cbn [console]. now rewrite <- app_assoc.
Qed.

Lemma mkdir_ok (parent p : str) (w w' : World) :
  mkdir_exist_ok parent p w = (Ok tt, w') ->
  dirs (fs w') p = true /\ files (fs w') = files (fs w)
  /\ console w' = console w.
Proof.
  unfold mkdir_exist_ok.
  destruct (dirs (fs w) p) eqn:D.
  - intros H. injection H as <-. now repeat split.
  - destruct (files (fs w) p); [discriminate|].
    destruct (dirs (fs w) parent).
    + intros H. apply (f_equal snd) in H. cbn [snd] in H. subst w'.
      cbn [fs console]. split; [|now split].
      unfold dirs, set_dir. cbn [dir_list existsb].
      now rewrite StrFacts.eqb_refl.
    + destruct (files (fs w) parent); discriminate.
Qed.

Lemma until_protoc_effect (env : Env) (w w1 : World) :
  until_protoc env w = (Ok tt, w1) ->
  grpc_tools_importable env = true
  /\ exists lines,
       files (fs w) (RPC_PROTO_FILE env) = Some lines
       /\ files (fs w1) (RPC_PROTO_FILE env) = Some (main_filter lines)
       /\ (forall q, q <> RPC_PROTO_FILE env ->
                     files (fs w1) q = files (fs w) q)
       /\ dirs (fs w1) (ETCDRPC_DIR env) = true
       /\ console w1
          = console w
            ++ [(Stdout, lit "--- Modifying rpc.proto before generation ---")]
            ++ map (pair Stdout) (printed (run_loop loop_init lines))
            ++ [(Stdout, lit "--- Running protoc ---");
                (Stdout,
                 lit "Running: " ++ join (lit " ") (protoc_command env))].
Proof.
  intros H. unfold until_protoc in H.
  destruct (import_protoc_cases env w) as [[Hi E] | (Hi & w' & E & _)].
  2:{ rewrite (bind_exit _ _ _ _ _ E) in H. discriminate H. }
  split; [exact Hi|].
  rewrite (bind_ok _ _ _ _ _ E) in H.
  unfold bind at 1 in H.
  destruct (modify_rpc_proto env w) as [[[]|c|e] wa] eqn:Em;
    try discriminate H.
  destruct (modify_rpc_proto_ok env w wa Em) as (lines & Hl & Hf & Hc).
  rewrite bind_print in H. unfold bind at 1 in H.
  destruct (mkdir_exist_ok _ _ _) as [[[]|c|e] wb] eqn:Ek;
    try discriminate H.
  destruct (mkdir_ok _ _ _ _ Ek) as (Hd & Hfb & Hcb).
  cbn [fs console] in Hfb, Hcb.
  cbn [print] in H. injection H as <-. cbn [fs console].
  exists lines. split; [exact Hl|].
  rewrite Hfb, Hf. split; [apply files_set_file_same|].
  split; [intros q Hq; now apply files_set_file_other|].
  split; [exact Hd|].
  rewrite Hcb, Hc. now rewrite <- !app_assoc.
Qed.

(** When the generator is started, [rpc.proto] holds the output of the
    filter and no other file has changed; the output directory is there,
    and the console shows the header, the messages of the filter and the
    command line, in this order. *)
Theorem schema_rewritten_before_generator (env : Env) (w w1 : World) :
  until_protoc env w = (Ok tt, w1) ->
  grpc_tools_importable env = true
  /\ exists lines,
       files (fs w) (RPC_PROTO_FILE env) = Some lines
       /\ files (fs w1) (RPC_PROTO_FILE env) = Some (main_filter lines)
       /\ (forall q, q <> RPC_PROTO_FILE env ->
                     files (fs w1) q = files (fs w) q)
       /\ dirs (fs w1) (ETCDRPC_DIR env) = true
       /\ console w1
          = console w
            ++ [(Stdout, lit "--- Modifying rpc.proto before generation ---")]
            ++ map (pair Stdout) (printed (run_loop loop_init lines))
            ++ [(Stdout, lit "--- Running protoc ---");
                (Stdout,
                 lit "Running: " ++ join (lit " ") (protoc_command env))].
Proof. apply until_protoc_effect. Qed.

Lemma schema_rewritten_before_generator_witness :
  until_protoc env_protoc_ok example_world
  = (Ok tt, snd (until_protoc env_protoc_ok example_world))
  /\ files (fs (snd (until_protoc env_protoc_ok example_world)))
       (RPC_PROTO_FILE env_protoc_ok)
     = Some (main_filter example_rpc_proto).
Proof.
  assert (H : until_protoc env_protoc_ok example_world
              = (Ok tt, snd (until_protoc env_protoc_ok example_world)))
    by (vm_compute; reflexivity).
  split; [exact H|].
  destruct (schema_rewritten_before_generator env_protoc_ok _ _ H)
    as (_ & lines & Hl & Hw & _).
  rewrite Hw. f_equal. f_equal.
  assert (E : files (fs example_world) (RPC_PROTO_FILE env_protoc_ok)
              = Some example_rpc_proto) by reflexivity.
  rewrite E in Hl. now injection Hl as <-.
Defined.

Lemma first_obstacle_no_files (f : FS) (l : list str) :
  (forall a, In a l -> files f a = None) ->
  first_obstacle f l = FileNotFoundError.
Proof.
  induction l as [|a l IH]; intros H; [reflexivity|].
  cbn [first_obstacle]. rewrite (H a (or_introl eq_refl)).
  destruct (dirs f a); [|reflexivity].
  apply IH. intros x Hx. apply H. now right.
Qed.

Lemma first_obstacle_app_dirs (f : FS) (l1 l2 : list str) :
  (forall a, In a l1 -> dirs f a = true) ->
  first_obstacle f (l1 ++ l2) = first_obstacle f l2.
Proof.
  induction l1 as [|a l IH]; intros H; [reflexivity|].
  cbn [app first_obstacle]. rewrite (H a (or_introl eq_refl)).
  apply IH. intros x Hx. apply H. now right.
Qed.

Lemma parents_from_app (a b : str) :
  forall pre,
    parents_from pre (a ++ b)
    = parents_from pre a ++ parents_from (pre ++ a) b.
Proof.
  induction a as [|c a IH]; intros pre.
  - cbn [app parents_from]. now rewrite app_nil_r.
  - cbn [app parents_from]. rewrite !IH, <- !app_assoc. cbn [app].
    destruct (Ascii.eqb c slash); [destruct pre|]; reflexivity.
Qed.

Lemma parents_schema (env : Env) :
  parents (RPC_PROTO_FILE env) = parents (PROTO_DIR env) ++ [PROTO_DIR env].
Proof.
  unfold RPC_PROTO_FILE at 1, joinpath at 1, parents.
  rewrite parents_from_app. f_equal. cbn [app].
  destruct (PROTO_DIR env) as [|c d] eqn:E.
  - unfold PROTO_DIR, joinpath in E. apply app_eq_nil in E as [_ E].
    discriminate E.
  - reflexivity.
Qed.

Lemma main_at_missing_schema (env : Env) (w : World) :
  grpc_tools_importable env = true ->
  files (fs w) (RPC_PROTO_FILE env) = None ->
  dirs (fs w) (RPC_PROTO_FILE env) = false ->
  main env w
  = (Raise (missing_error (fs w) (RPC_PROTO_FILE env)),
     mkWorld (fs w)
       (console w
        ++ [(Stdout, lit "--- Modifying rpc.proto before generation ---")])).
Proof.
  intros Hi Hf Hd. unfold main.
  rewrite (bind_ok _ _ w w tt)
    by (unfold import_protoc; now rewrite Hi).
  eapply bind_raise. unfold modify_rpc_proto. rewrite bind_print.
  eapply bind_raise. unfold read_lines. cbn [fs console].
  now rewrite Hf, Hd.
Qed.

(** Without [rpc.proto], and with no regular file standing where one of
    the directories above it should be, the script stops at [open] with
    [FileNotFoundError], after the header line and before anything is
    written or the generator is started. *)
Theorem missing_schema_raises (env : Env) (w : World) :
  grpc_tools_importable env = true ->
  files (fs w) (RPC_PROTO_FILE env) = None ->
  dirs (fs w) (RPC_PROTO_FILE env) = false ->
  (forall a, In a (parents (RPC_PROTO_FILE env)) -> files (fs w) a = None) ->
  main env w
  = (Raise FileNotFoundError,
     mkWorld (fs w)
       (console w
        ++ [(Stdout, lit "--- Modifying rpc.proto before generation ---")]))
  /\ exit_status (fst (main env w)) = 1.
Proof.
  intros Hi Hf Hd Ha.
  rewrite (main_at_missing_schema env w Hi Hf Hd).
  unfold missing_error. rewrite (first_obstacle_no_files _ _ Ha).
  now split.
Qed.

Lemma missing_schema_raises_witness :
  grpc_tools_importable env_protoc_ok = true
  /\ files (fs world_without_schema) (RPC_PROTO_FILE env_protoc_ok) = None
  /\ dirs (fs world_without_schema) (RPC_PROTO_FILE env_protoc_ok) = false
  /\ (forall a, In a (parents (RPC_PROTO_FILE env_protoc_ok)) ->
                files (fs world_without_schema) a = None)
  /\ exit_status (fst (main env_protoc_ok world_without_schema)) = 1.
Proof.
  assert (H : forall a, In a (parents (RPC_PROTO_FILE env_protoc_ok)) ->
                        files (fs world_without_schema) a = None)
    by (intros a _; reflexivity).
  split; [reflexivity|]. split; [reflexivity|]. split; [reflexivity|].
  split; [exact H|].
  exact (proj2 (missing_schema_raises env_protoc_ok world_without_schema
                  eq_refl eq_refl eq_refl H)).
Defined.

(** When a regular file stands where the directory of the schema should
    be, and the directories above it are in place, [open] raises
    [NotADirectoryError]: the script stops there, with nothing written. *)
Theorem schema_below_file_raises (env : Env) (w : World)
        (content : list str) :
  grpc_tools_importable env = true ->
  (forall a, In a (parents (PROTO_DIR env)) -> dirs (fs w) a = true) ->
  files (fs w) (PROTO_DIR env) = Some content ->
  dirs (fs w) (PROTO_DIR env) = false ->
  files (fs w) (RPC_PROTO_FILE env) = None ->
  dirs (fs w) (RPC_PROTO_FILE env) = false ->
  main env w
  = (Raise NotADirectoryError,
     mkWorld (fs w)
       (console w
        ++ [(Stdout, lit "--- Modifying rpc.proto before generation ---")]))
  /\ exit_status (fst (main env w)) = 1.
Proof.
  intros Hi Ha Hp Hpd Hf Hd.
  rewrite (main_at_missing_schema env w Hi Hf Hd).
  unfold missing_error. rewrite parents_schema.
  rewrite (first_obstacle_app_dirs _ _ _ Ha).
  cbn [first_obstacle]. rewrite Hpd, Hp. now split.
Qed.

Lemma schema_below_file_raises_witness :
  fst (main env_protoc_ok world_with_file_at_proto)
  = Raise NotADirectoryError.
Proof.
  assert (H : forall a, In a (parents (PROTO_DIR env_protoc_ok)) ->
                        dirs (fs world_with_file_at_proto) a = true).
  { intros a Ha. vm_compute in Ha.
    repeat (destruct Ha as [<- | Ha]; [reflexivity|]). destruct Ha. }
  rewrite (proj1 (schema_below_file_raises env_protoc_ok
                    world_with_file_at_proto [] eq_refl H
                    eq_refl eq_refl eq_refl eq_refl)).
  reflexivity.
Defined.

Lemma patch_rpc_pb2_grpc_present (env : Env) (w : World) (lines : list str) :
  files (fs w) (RPC_PB2_GRPC_FILE env) = Some lines ->
  dirs (fs w) (RPC_PB2_GRPC_FILE env ++ lit ".bak") = false ->
  exists w',
    patch_rpc_pb2_grpc env w = (Ok tt, w')
    /\ console w'
       = console w
         ++ [(Stdout, lit "Patching imports in " ++ RPC_PB2_GRPC_FILE env)]
    /\ dirs (fs w') = dirs (fs w)
    /\ files (fs w') (RPC_PB2_GRPC_FILE env)
       = Some (map (re_sub_anchored (lit "import rpc_pb2")
                      (lit "from etcd3.etcdrpc import rpc_pb2")) lines)
    /\ forall q, q <> RPC_PB2_GRPC_FILE env ->
                 q <> RPC_PB2_GRPC_FILE env ++ lit ".bak" ->
                 files (fs w') q = files (fs w) q.
Proof.
  intros H Hb. unfold patch_rpc_pb2_grpc.
  rewrite (bind_ok _ _ w w true)
    by (unfold path_exists, exists_; now rewrite H).
  rewrite bind_print.
  destruct (sed_inplace_ok (RPC_PB2_GRPC_FILE env) (lit "import rpc_pb2")
              (lit "from etcd3.etcdrpc import rpc_pb2") lines
              (mkWorld (fs w)
                 (console w
                  ++ [(Stdout,
                       lit "Patching imports in " ++ RPC_PB2_GRPC_FILE env)]))
              H Hb)
    as (w2 & E2 & C2 & D2 & F2 & O2).
  exists w2. split; [exact E2|]. split; [exact C2|]. split; [exact D2|].
  split; [exact F2 | exact O2].
Qed.

Lemma touch_marker (parent p : str) (w : World) :
  dirs (fs w) parent = true ->
  exists w',
    touch_exist_ok parent p w = (Ok tt, w')
    /\ exists_ (fs w') p = true
    /\ console w' = console w
    /\ dirs (fs w') = dirs (fs w)
    /\ forall q, q <> p -> files (fs w') q = files (fs w) q.
Proof.
  intros H. unfold touch_exist_ok.
  destruct (exists_ (fs w) p) eqn:X.
  - exists w. now repeat split.
  - rewrite H. eexists. split; [reflexivity|]. cbn [fs console].
    split; [unfold exists_; now rewrite files_set_file_same|].
    split; [reflexivity|]. split; [reflexivity|].
    intros q Hq. now apply files_set_file_other.
Qed.

Section MorePaths.

Variable env : Env.

Lemma grpc_bak_neq_pb2 : RPC_PB2_FILE env <> RPC_PB2_GRPC_FILE env ++ lit ".bak".
Proof.
  intros E. symmetry in E. revert E.
  apply joinpath_bak_neq. discriminate.
Qed.

Lemma init_neq_pb2_bak :
  joinpath (ETCDRPC_DIR env) (lit "__init__.py")
  <> RPC_PB2_FILE env ++ lit ".bak".
Proof.
  intros E. symmetry in E. revert E.
  apply joinpath_bak_neq. discriminate.
Qed.

Lemma init_neq_grpc_bak :
  joinpath (ETCDRPC_DIR env) (lit "__init__.py")
  <> RPC_PB2_GRPC_FILE env ++ lit ".bak".
Proof.
  intros E. symmetry in E. revert E.
  apply joinpath_bak_neq. discriminate.
Qed.

End MorePaths.

(** When the generator has returned 0 and written both modules, and no
    directory stands at the backup name of either, [main] patches both,
    leaves the package marker in place, prints the closing line last and
    returns normally. *)
Theorem both_modules_patched (env : Env) (w w1 : World)
        (r : ProcessResult) (f : FS) (l1 l2 : list str) :
  until_protoc env w = (Ok tt, w1) ->
  subprocess_run env (protoc_command env) (fs w1) = (r, f) ->
  returncode r = 0 ->
  dirs f (ETCDRPC_DIR env) = true ->
  files f (RPC_PB2_FILE env) = Some l1 ->
  files f (RPC_PB2_GRPC_FILE env) = Some l2 ->
  dirs f (RPC_PB2_FILE env ++ lit ".bak") = false ->
  dirs f (RPC_PB2_GRPC_FILE env ++ lit ".bak") = false ->
  exists w2,
    main env w = (Ok tt, w2)
    /\ files (fs w2) (RPC_PB2_FILE env)
       = Some (map (re_sub_anchored (lit "import kv_pb2")
                      (lit "from etcd3.etcdrpc import kv_pb2"))
                 (map (re_sub_anchored (lit "import auth_pb2")
                         (lit "from etcd3.etcdrpc import auth_pb2")) l1))
    /\ files (fs w2) (RPC_PB2_GRPC_FILE env)
       = Some (map (re_sub_anchored (lit "import rpc_pb2")
                      (lit "from etcd3.etcdrpc import rpc_pb2")) l2)
    /\ exists_ (fs w2) (joinpath (ETCDRPC_DIR env) (lit "__init__.py")) = true
    /\ exists shown,
         console w2
         = shown ++ [(Stdout, lit "Proto files generated successfully.")].
Proof.
  intros Hu Hr Hc Hd H1 H2 Hb1 Hb2.
  rewrite (main_from_protoc env w w1 Hu).
  rewrite (bind_run _ _ _ _ _ _ Hr).
  destruct (check_result_passed r (mkWorld f (console w1)) Hc)
    as (wb & Eb & Fb & _).
  cbn [fs] in Fb.
  rewrite (bind_ok _ _ _ _ _ Eb).
  unfold modify_generated.
  destruct (touch_marker (ETCDRPC_DIR env)
              (joinpath (ETCDRPC_DIR env) (lit "__init__.py")) wb)
    as (wc & Ec & Xc & _ & Dc & Oc); [now rewrite Fb|].
  rewrite (bind_ok _ _ _ _ _ Ec). rewrite bind_print.
  set (wd := mkWorld (fs wc) _).
  destruct (patch_rpc_pb2_present env wd l1) as (we & Ee & _ & De & Fe & Oe).
  { subst wd. cbn [fs]. rewrite Oc; [now rewrite Fb|].
    intros E. symmetry in E. now apply (init_neq_pb2 env). }
  { subst wd. cbn [fs]. now rewrite Dc, Fb. }
  rewrite (bind_ok _ _ _ _ _ Ee).
  destruct (patch_rpc_pb2_grpc_present env we l2)
    as (wf & Ef & Cf & Df & Ff & Of).
  { rewrite Oe.
    - subst wd. cbn [fs]. rewrite Oc; [now rewrite Fb|].
      intros E. now apply (init_neq_grpc env).
    - intros E. now apply (pb2_neq_grpc env).
    - intros E. now apply (pb2_bak_neq_grpc env). }
  { rewrite De. subst wd. cbn [fs]. now rewrite Dc, Fb. }
  rewrite (bind_ok _ _ _ _ _ Ef).
  eexists. split; [reflexivity|]. cbn [fs console].
  split.
  { rewrite Of; [exact Fe | apply pb2_neq_grpc | apply grpc_bak_neq_pb2]. }
  split; [exact Ff|]. split; [|eexists; reflexivity].
  unfold exists_ in *. rewrite Df, De.
  rewrite Of by (first [apply init_neq_grpc | apply init_neq_grpc_bak]).
  rewrite Oe by (first [apply init_neq_pb2 | apply init_neq_pb2_bak]).
  subst wd. cbn [fs]. exact Xc.
Qed.

Lemma both_modules_patched_witness :
  exit_status (fst (main env_protoc_ok example_world)) = 0
  /\ files (fs (snd (main env_protoc_ok example_world)))
       (RPC_PB2_FILE env_protoc_ok)
     = Some (patched_pb2 example_rpc_pb2)
  /\ files (fs (snd (main env_protoc_ok example_world)))
       (RPC_PB2_GRPC_FILE env_protoc_ok)
     = Some [ nl "import grpc";
              nl "from etcd3.etcdrpc import rpc_pb2 as rpc__pb2";
              nl "class KVStub(object):";
              nl "    # uses import rpc_pb2" ].
Proof.
  destruct (both_modules_patched env_protoc_ok example_world
              (snd (until_protoc env_protoc_ok example_world))
              (mkResult 0 (lit "done") [])
              (set_file
                 (set_file
                    (fs (snd (until_protoc env_protoc_ok example_world)))
                    (lit "/repo/src/etcd3/etcdrpc/rpc_pb2.py")
                    (Some example_rpc_pb2))
                 (lit "/repo/src/etcd3/etcdrpc/rpc_pb2_grpc.py")
                 (Some example_rpc_pb2_grpc))
              example_rpc_pb2 example_rpc_pb2_grpc)
    as (w2 & E & P & G & _);
    try (vm_compute; reflexivity).
  rewrite E. cbn [fst snd exit_status].
  split; [reflexivity|]. split; [exact P|].
  rewrite G. vm_compute. reflexivity.
Defined.

(** [main] raises [SystemExit] in two places only: with 1 when
    [grpc.tools] cannot be imported, and with the non-zero return code of
    the generator.  Where return codes lie strictly between -256 and 256
    (an exit code from 0 to 255, or minus the number of the signal that
    ended the child), none of them is a non-zero multiple of 256, so the
    exit status is 0 exactly when [main] has run to its end. *)
Theorem exit_status_meaning (env : Env) (w : World) :
  (forall cmd f, -256 < returncode (fst (subprocess_run env cmd f)) < 256) ->
  (exit_status (fst (main env w)) = 0 <-> fst (main env w) = Ok tt)
  /\ forall c,
       fst (main env w) = SystemExit c ->
       c <> 0
       /\ ((grpc_tools_importable env = false /\ c = 1)
           \/ exists w1 r f,
                until_protoc env w = (Ok tt, w1)
                /\ subprocess_run env (protoc_command env) (fs w1) = (r, f)
                /\ c = returncode r).
Proof.
  intros Hrange.
  assert (X : forall c,
             fst (main env w) = SystemExit c ->
             c <> 0
             /\ ((grpc_tools_importable env = false /\ c = 1)
                 \/ exists w1 r f,
                      until_protoc env w = (Ok tt, w1)
                      /\ subprocess_run env (protoc_command env) (fs w1)
                         = (r, f)
                      /\ c = returncode r)).
  { intros c H.
    destruct (until_protoc env w) as [o w1] eqn:U.
    pose proof (main_until_cases env w w1 o U) as M.
    destruct o as [[]|c0|e0].
    - destruct (subprocess_run env (protoc_command env) (fs w1))
        as [r f] eqn:R.
      rewrite (bind_run _ _ _ _ _ _ R) in M.
      destruct (Z.eq_dec (returncode r) 0) as [Hz|Hz].
      + destruct (check_result_passed r (mkWorld f (console w1)) Hz)
          as (wb & Eb & _).
        rewrite (bind_ok _ _ _ _ _ Eb) in M.
        rewrite M in H.
        destruct (modify_generated env wb) as [o' w'] eqn:G.
        cbn [fst] in H. subst o'.
        now apply never_exits_modify_generated in G.
      + rewrite (bind_exit _ _ _ _ _ (check_result_failed r _ Hz)) in M.
        rewrite M in H. cbn [fst] in H. injection H as <-.
        split; [exact Hz|]. right. now exists w1, r, f.
    - rewrite M in H. cbn [fst] in H. injection H as <-.
      destruct (until_protoc_exit env w w1 c0 U) as [Hi ->].
      split; [discriminate | now left].
    - rewrite M in H. discriminate H. }
  split; [|exact X].
  split.
  - intros H. destruct (fst (main env w)) as [[]|c|e] eqn:E.
    + reflexivity.
    + cbn [exit_status] in H. exfalso.
      destruct (X c eq_refl) as [Hc [[_ ->] | (w1 & r & f & _ & R & ->)]].
      * discriminate H.
      * pose proof (Hrange (protoc_command env) (fs w1)) as B.
        rewrite R in B. cbn [fst] in B.
        pose proof (Z.div_mod (returncode r) 256). lia.
    + discriminate H.
  - intros ->. reflexivity.
Qed.

Lemma exit_status_meaning_witness :
  (forall cmd f,
      -256 < returncode (fst (subprocess_run env_protoc_fails cmd f)) < 256)
  /\ fst (main env_protoc_fails example_world) = SystemExit 1
  /\ 1 <> 0
  /\ exit_status (fst (main env_protoc_fails example_world)) <> 0.
Proof.
  assert (R : forall cmd f,
             -256 < returncode (fst (subprocess_run env_protoc_fails cmd f))
             < 256) by (intros cmd f; simpl; lia).
  assert (H : fst (main env_protoc_fails example_world) = SystemExit 1)
    by (vm_compute; reflexivity).
  destruct (exit_status_meaning env_protoc_fails example_world R)
    as [[I _] X].
  split; [exact R|]. split; [exact H|].
  split; [exact (proj1 (X 1 H))|].
  intros E. apply I in E. rewrite H in E. discriminate E.
Defined.

Section Keeps.

Variable q : str.

Lemma keeps_of_touches {A} (paths : list str) (c : M A) :
  touches_only paths c -> outside paths q -> keeps_file q c.
Proof.
  intros H Hq w. destruct (c w) as [o w'] eqn:E.
  exact (H w o w' E q Hq).
Qed.

Lemma keeps_bind {A B} (c : M A) (k : A -> M B) :
  keeps_file q c -> (forall a, keeps_file q (k a)) ->
  keeps_file q (bind c k).
Proof.
  intros Hc Hk w. unfold bind. specialize (Hc w).
  destruct (c w) as [[a|code|e] w1]; cbn [snd] in *;
    [|exact Hc ..].
  rewrite (Hk a w1). exact Hc.
Qed.

End Keeps.

(** [main] writes to the schema, the package marker, the two generated
    modules and their backups, and it can move a directory that stands at
    the path of a generated module to the backup name.  A file that is
    none of these paths and lies below none of them, and that the
    generator leaves alone, has the same content after [main], however
    [main] ends. *)
Theorem main_keeps_other_files (env : Env) (q : str) :
  outside (known_paths env) q ->
  (forall cmd f, files (snd (subprocess_run env cmd f)) q = files f q) ->
  forall w, files (fs (snd (main env w))) q = files (fs w) q.
Proof.
  intros Hq Hg.
  assert (K : forall A (c : M A),
             touches_only (known_paths env) c -> keeps_file q c).
  { intros A c H. exact (keeps_of_touches q (known_paths env) c H Hq). }
  change (keeps_file q (main env)). unfold main.
  apply keeps_bind; [apply K, touches_import_protoc|intros _].
  apply keeps_bind; [apply K, touches_modify_rpc_proto|intros _].
  apply keeps_bind; [apply K, touches_print|intros _].
  apply keeps_bind; [apply K, touches_mkdir|intros _].
  apply keeps_bind; [apply K, touches_print|intros _].
  apply keeps_bind.
  { intros w. unfold run.
    specialize (Hg (protoc_command env) (fs w)).
    destruct (subprocess_run env (protoc_command env) (fs w)) as [r f].
    exact Hg. }
  intros r.
  apply keeps_bind; [apply K, touches_check_result|intros _].
  apply K, touches_modify_generated.
Qed.

Lemma main_keeps_other_files_witness :
  outside (known_paths env_protoc_ok) (lit "/repo/README.md")
  /\ files (fs (snd (main env_protoc_ok example_world))) (lit "/repo/README.md")
     = files (fs example_world) (lit "/repo/README.md").
Proof.
  assert (H : outside (known_paths env_protoc_ok) (lit "/repo/README.md")).
  { intros p Hp. vm_compute in Hp.
    repeat (destruct Hp as [<- | Hp]; [reflexivity|]). destruct Hp. }
  split; [exact H|].
  apply (main_keeps_other_files env_protoc_ok (lit "/repo/README.md") H).
  intros cmd f. unfold env_protoc_ok. cbn [subprocess_run snd].
  rewrite !files_set_file_other
    by (intros E; vm_compute in E; discriminate E).
  reflexivity.
Defined.

Lemma printed_cons (l : str) (rest : list str) :
  printed (run_loop loop_init (l :: rest))
  = printed (loop_body loop_init l)
    ++ printed (run_loop (fresh (skip_lines (loop_body loop_init l))) rest).
Proof.
  unfold run_loop. cbn [fold_left].
  fold (run_loop (loop_body loop_init l) rest).
  now rewrite run_glue.
Qed.

(** On a schema without option lines every line that carries a marker is
    reported on standard output, once and in the order of the file, and
    the lines written and the lines reported add up to the lines read. *)
Theorem dropped_lines_reported (lines : list str) :
  (forall l, In l lines -> contains HTTP_OPTION l = false) ->
  printed (run_loop loop_init lines)
  = map dropping_message (filter (fun l => negb (unmarked l)) lines)
  /\ (List.length (main_filter lines)
      + List.length (printed (run_loop loop_init lines))
      = List.length lines)%nat.
Proof.
  intros H.
  assert (P : printed (run_loop loop_init lines)
              = map dropping_message
                  (filter (fun l => negb (unmarked l)) lines)).
  { induction lines as [|l ls IH]; [reflexivity|].
    rewrite printed_cons.
    assert (Hl : contains HTTP_OPTION l = false) by (apply H; now left).
    assert (IH' : printed (run_loop loop_init ls)
                  = map dropping_message
                      (filter (fun l => negb (unmarked l)) ls)).
    { apply IH. intros x Hx. apply H. now right. }
    cbn [filter]. unfold unmarked at 1, loop_body, loop_init.
    cbn [skip_lines modified_lines printed]. rewrite Hl.
    change (0 <? 0) with false. cbv iota.
    destruct (contains GOGOPROTO l); cbn [negb andb map printed skip_lines app];
      [now rewrite <- IH'|].
    destruct (contains ANNOTATIONS l);
      cbn [negb andb map printed skip_lines app]; now rewrite <- IH'. }
  split; [exact P|].
  rewrite P, length_map.
  rewrite (proj1 (filter_without_option_blocks_aux lines H)), length_map.
  clear. induction lines as [|l ls IH]; [reflexivity|].
  cbn [filter List.length]. destruct (unmarked l); cbn [negb List.length]; lia.
Qed.

Lemma schema_outside_generated (env : Env) :
  outside (generated_paths env) (RPC_PROTO_FILE env).
Proof.
  unfold outside, generated_paths, RPC_PROTO_FILE, RPC_PB2_FILE,
    RPC_PB2_GRPC_FILE, PROTO_DIR, ETCDRPC_DIR, SRC_DIR, joinpath.
  cbn [In]. intros p H.
  repeat (destruct H as [<- | H];
          [rewrite <- !app_assoc; rewrite TreeFacts.under_app_same;
           reflexivity|]).
  destruct H.
Qed.

(** There is no rollback: once the generator has been started, [rpc.proto]
    keeps the filtered content to the end of [main], whether the generator
    fails, a patch step raises or all goes well, as long as the generator
    itself does not write the schema. *)
Theorem schema_stays_filtered (env : Env) (w w1 : World) (lines : list str) :
  until_protoc env w = (Ok tt, w1) ->
  files (fs w) (RPC_PROTO_FILE env) = Some lines ->
  (forall cmd f,
      files (snd (subprocess_run env cmd f)) (RPC_PROTO_FILE env)
      = files f (RPC_PROTO_FILE env)) ->
  files (fs (snd (main env w))) (RPC_PROTO_FILE env)
  = Some (main_filter lines).
Proof.
  intros Hu Hl Hg.
  destruct (until_protoc_effect env w w1 Hu) as (_ & ls & Hl' & Hw & _).
  rewrite Hl in Hl'. injection Hl' as <-.
  assert (K : keeps_file (RPC_PROTO_FILE env)
                (result <- run env (protoc_command env) ;;
                 _ <- check_result result ;;
                 modify_generated env)).
  { apply keeps_bind.
    { intros w'. unfold run.
      specialize (Hg (protoc_command env) (fs w')).
      destruct (subprocess_run env (protoc_command env) (fs w')) as [r f].
      exact Hg. }
    intros r. apply keeps_bind.
    - apply (keeps_of_touches _ [] _ (touches_check_result [] r)).
      intros p [].
    - intros _.
      apply (keeps_of_touches _ _ _ (touches_modify_generated_only env)).
      apply schema_outside_generated. }
  rewrite (main_until_cases env w w1 (Ok tt) Hu).
  rewrite (K w1). exact Hw.
Qed.

Lemma schema_stays_filtered_witness :
  until_protoc env_protoc_fails example_world
  = (Ok tt, snd (until_protoc env_protoc_fails example_world))
  /\ files (fs example_world) (RPC_PROTO_FILE env_protoc_fails)
     = Some example_rpc_proto
  /\ files (fs (snd (main env_protoc_fails example_world)))
       (RPC_PROTO_FILE env_protoc_fails)
     = Some (main_filter example_rpc_proto).
Proof.
  assert (H : until_protoc env_protoc_fails example_world
              = (Ok tt, snd (until_protoc env_protoc_fails example_world)))
    by (vm_compute; reflexivity).
  split; [exact H|]. split; [reflexivity|].
  apply (schema_stays_filtered env_protoc_fails example_world _
           example_rpc_proto H eq_refl).
  intros cmd f. reflexivity.
Defined.

Lemma modify_rpc_proto_run (env : Env) (w : World) (lines : list str) :
  files (fs w) (RPC_PROTO_FILE env) = Some lines ->
  dirs (fs w) (RPC_PROTO_FILE env) = false ->
  modify_rpc_proto env w
  = (Ok tt,
     mkWorld (set_file (fs w) (RPC_PROTO_FILE env) (Some (main_filter lines)))
       ((console w
         ++ [(Stdout, lit "--- Modifying rpc.proto before generation ---")])
        ++ map (pair Stdout) (printed (run_loop loop_init lines)))).
Proof.
  intros Hl Hd. unfold modify_rpc_proto. rewrite bind_print.
  unfold bind at 1. unfold read_lines. cbn [fs console]. rewrite Hl.
  unfold bind at 1. rewrite print_all_spec. cbn [fs console].
  unfold write_lines. cbn [fs console]. now rewrite Hd.
Qed.

(** When a regular file stands where the output directory should be,
    [mkdir] raises [FileExistsError]: the generator is not started, but the
    schema has already been rewritten. *)
Theorem output_dir_blocked (env : Env) (w : World)
        (lines content : list str) :
  grpc_tools_importable env = true ->
  files (fs w) (RPC_PROTO_FILE env) = Some lines ->
  dirs (fs w) (RPC_PROTO_FILE env) = false ->
  dirs (fs w) (ETCDRPC_DIR env) = false ->
  files (fs w) (ETCDRPC_DIR env) = Some content ->
  fst (main env w) = Raise FileExistsError
  /\ fs (snd (main env w))
     = set_file (fs w) (RPC_PROTO_FILE env) (Some (main_filter lines)).
Proof.
  intros Hi Hl Hd Hed Hef.
  assert (Hne : ETCDRPC_DIR env <> RPC_PROTO_FILE env).
  { unfold RPC_PROTO_FILE, PROTO_DIR, ETCDRPC_DIR, joinpath. intros H.
    rewrite <- !app_assoc in H. repeat apply app_inv_head in H.
    discriminate H. }
  unfold main.
  rewrite (bind_ok _ _ w w tt) by (unfold import_protoc; now rewrite Hi).
  rewrite (bind_ok _ _ _ _ _ (modify_rpc_proto_run env w lines Hl Hd)).
  rewrite bind_print.
  match goal with
  | |- context [bind (mkdir_exist_ok ?a ?b) ?k ?w0] =>
      assert (E : mkdir_exist_ok a b w0 = (Raise FileExistsError, w0))
  end.
  { unfold mkdir_exist_ok. cbn [fs console].
    rewrite dirs_set_file, Hed.
    now rewrite (files_set_file_other _ _ _ _ Hne), Hef. }
  rewrite (bind_raise _ _ _ _ _ E). split; reflexivity.
Qed.

Lemma output_dir_blocked_witness :
  fst (main env_protoc_ok
         (mkWorld
            (set_file example_fs (lit "/repo/src/etcd3/etcdrpc") (Some []))
            []))
  = Raise FileExistsError.
Proof.
  apply (output_dir_blocked env_protoc_ok
           (mkWorld
              (set_file example_fs (lit "/repo/src/etcd3/etcdrpc") (Some []))
              [])
           example_rpc_proto []);
    reflexivity.
Defined.

Lemma dropped_lines_reported_witness :
  (forall l, In l [nl "syntax = proto3;";
                   nl "option (gogoproto.marshaler_all) = true;";
                   import_kv_line] ->
             contains HTTP_OPTION l = false)
  /\ printed (run_loop loop_init
                [nl "syntax = proto3;";
                 nl "option (gogoproto.marshaler_all) = true;";
                 import_kv_line])
     = map dropping_message
         (filter (fun l => negb (unmarked l))
            [nl "syntax = proto3;";
             nl "option (gogoproto.marshaler_all) = true;";
             import_kv_line]).
Proof.
  assert (H : forall l, In l [nl "syntax = proto3;";
                              nl "option (gogoproto.marshaler_all) = true;";
                              import_kv_line] ->
                        contains HTTP_OPTION l = false).
  { intros l [<- | [<- | [<- | []]]]; reflexivity. }
  split; [exact H|].
  exact (proj1 (dropped_lines_reported _ H)).
Defined.

(** ** Directories in the way of the import patch *)

Lemma after_generator_ok (env : Env) (w w1 : World) (r : ProcessResult)
      (f : FS) :
  until_protoc env w = (Ok tt, w1) ->
  subprocess_run env (protoc_command env) (fs w1) = (r, f) ->
  returncode r = 0 ->
  exists wb,
    fs wb = f /\ main env w = modify_generated env wb.
Proof.
  intros Hu Hr Hc.
  destruct (check_result_passed r (mkWorld f (console w1)) Hc)
    as (wb & Eb & Fb & _).
  exists wb. split; [exact Fb|].
  rewrite (main_from_protoc env w w1 Hu).
  rewrite (bind_run _ _ _ _ _ _ Hr).
  now rewrite (bind_ok _ _ _ _ _ Eb).
Qed.

(** When a directory stands at the backup name of [rpc_pb2.py], the
    rename that [fileinput] starts with fails: [main] ends with
    [IsADirectoryError], exit status 1, and [rpc_pb2.py] keeps the lines
    the generator wrote. *)
Theorem backup_dir_blocks_patch (env : Env) (w w1 : World)
        (r : ProcessResult) (f : FS) (l1 : list str) :
  until_protoc env w = (Ok tt, w1) ->
  subprocess_run env (protoc_command env) (fs w1) = (r, f) ->
  returncode r = 0 ->
  dirs f (ETCDRPC_DIR env) = true ->
  files f (RPC_PB2_FILE env) = Some l1 ->
  dirs f (RPC_PB2_FILE env ++ lit ".bak") = true ->
  exists w2,
    main env w = (Raise IsADirectoryError, w2)
    /\ exit_status (fst (main env w)) = 1
    /\ files (fs w2) (RPC_PB2_FILE env) = Some l1.
Proof.
  intros Hu Hr Hc Hd H1 Hb.
  destruct (after_generator_ok env w w1 r f Hu Hr Hc) as (wb & Fb & ->).
  unfold modify_generated.
  destruct (touch_marker (ETCDRPC_DIR env)
              (joinpath (ETCDRPC_DIR env) (lit "__init__.py")) wb)
    as (wc & Ec & _ & _ & Dc & Oc); [now rewrite Fb|].
  rewrite (bind_ok _ _ _ _ _ Ec). rewrite bind_print.
  set (wd := mkWorld (fs wc) _).
  assert (F1 : files (fs wd) (RPC_PB2_FILE env) = Some l1).
  { subst wd. cbn [fs]. rewrite Oc; [now rewrite Fb|].
    intros E. symmetry in E. now apply (init_neq_pb2 env). }
  assert (Fd : dirs (fs wd) (RPC_PB2_FILE env ++ lit ".bak") = true).
  { subst wd. cbn [fs]. now rewrite Dc, Fb. }
  assert (P : exists w2,
             patch_rpc_pb2 env wd = (Raise IsADirectoryError, w2)
             /\ files (fs w2) (RPC_PB2_FILE env) = Some l1).
  { unfold patch_rpc_pb2.
    rewrite (bind_ok _ _ wd wd true)
      by (unfold path_exists, exists_; now rewrite F1).
    rewrite bind_print.
    destruct (sed_inplace_blocked (RPC_PB2_FILE env) (lit "import auth_pb2")
                (lit "from etcd3.etcdrpc import auth_pb2") l1
                (mkWorld (fs wd)
                   (console wd
                    ++ [(Stdout,
                         lit "Patching imports in " ++ RPC_PB2_FILE env)]))
                F1 Fd)
      as (w2 & E2 & F2).
    exists w2. split; [|exact F2].
    now rewrite (bind_raise _ _ _ _ _ E2). }
  destruct P as (w2 & E2 & F2).
  exists w2. rewrite (bind_raise _ _ _ _ _ E2).
  split; [reflexivity|]. split; [reflexivity | exact F2].
Qed.

Lemma backup_dir_blocks_patch_witness :
  fst (main env_protoc_backup_dir example_world) = Raise IsADirectoryError
  /\ files (fs (snd (main env_protoc_backup_dir example_world)))
       (RPC_PB2_FILE env_protoc_backup_dir)
     = Some example_rpc_pb2.
Proof.
  destruct (backup_dir_blocks_patch env_protoc_backup_dir example_world
              (snd (until_protoc env_protoc_backup_dir example_world))
              (mkResult 0 [] [])
              (set_dir
                 (set_file
                    (fs (snd (until_protoc env_protoc_backup_dir
                                example_world)))
                    (lit "/repo/src/etcd3/etcdrpc/rpc_pb2.py")
                    (Some example_rpc_pb2))
                 (lit "/repo/src/etcd3/etcdrpc/rpc_pb2.py.bak"))
              example_rpc_pb2)
    as (w2 & E & _ & F);
    try (vm_compute; reflexivity).
  rewrite E. cbn [fst snd]. split; [reflexivity | exact F].
Defined.

(** A generator that is ended by a signal gives a negative return code;
    [sys.exit] then leaves the script with that code reduced to one byte:
    signal 9 gives exit status 247. *)
Theorem killed_generator_status (env : Env) (w w1 : World)
        (r : ProcessResult) (f : FS) (n : Z) :
  until_protoc env w = (Ok tt, w1) ->
  subprocess_run env (protoc_command env) (fs w1) = (r, f) ->
  0 < n < 256 ->
  returncode r = - n ->
  fst (main env w) = SystemExit (- n)
  /\ exit_status (fst (main env w)) = 256 - n.
Proof.
  intros Hu Hr Hn Hc.
  assert (Hz : returncode r <> 0) by lia.
  rewrite (main_from_protoc env w w1 Hu).
  rewrite (bind_run _ _ _ _ _ _ Hr).
  rewrite (bind_exit _ _ _ _ _ (check_result_failed r _ Hz)).
  cbn [fst exit_status]. rewrite Hc. split; [reflexivity|].
  symmetry. apply (Z.mod_unique (- n) 256 (-1)); lia.
Qed.

Lemma killed_generator_status_witness :
  exit_status (fst (main env_protoc_killed example_world)) = 247.
Proof.
  apply (proj2 (killed_generator_status env_protoc_killed example_world
                  (snd (until_protoc env_protoc_killed example_world))
                  (mkResult (-9) [] [])
                  (fs (snd (until_protoc env_protoc_killed example_world)))
                  9 ltac:(vm_compute; reflexivity) eq_refl
                  ltac:(lia) eq_refl)).
Defined.

Lemma slash_path (p rel : str) : (p ++ [slash]) ++ rel = p ++ slash :: rel.
Proof. now rewrite <- app_assoc. Qed.

Lemma under_below (p rel : str) : under p ((p ++ [slash]) ++ rel) = true.
Proof.
  unfold under. rewrite StrFacts.startswith_app. apply orb_true_r.
Qed.

Lemma no_entry_below (l : list (str * list str)) (d : str) :
  existsb (fun e => startswith (d ++ [slash]) (fst e)) l = false ->
  forall k v, In (k, v) l -> startswith (d ++ [slash]) k = false.
Proof.
  intros H k v Hin.
  destruct (startswith (d ++ [slash]) k) eqn:E; [|reflexivity].
  assert (X : existsb (fun e => startswith (d ++ [slash]) (fst e)) l = true).
  { apply existsb_exists. exists (k, v). now split. }
  congruence.
Qed.

(** After the directory [src] has been renamed to [dst], below which
    nothing lay, what was at [src/rel] is at [dst/rel]. *)
Lemma files_rename_tree_moved (f : FS) (src dst rel : str) :
  existsb (fun e => startswith (dst ++ [slash]) (fst e)) (file_list f)
  = false ->
  files (rename_tree f src dst) ((dst ++ [slash]) ++ rel)
  = files f ((src ++ [slash]) ++ rel).
Proof.
  intros H. pose proof (no_entry_below _ _ H) as N. clear H.
  unfold files, rename_tree. cbn [file_list].
  induction (file_list f) as [|[k v] l IH]; [reflexivity|].
  cbn [map lookup fst snd].
  rewrite IH by (intros k' v' Hin; apply (N k' v'); now right).
  assert (Nk : startswith (dst ++ [slash]) k = false)
    by (apply (N k v); now left).
  unfold retarget. destruct (under src k) eqn:U.
  - unfold under in U. apply orb_true_iff in U as [U | U].
    + apply StrFacts.eqb_eq in U. subst k.
      rewrite skipn_all, app_nil_r.
      rewrite !slash_path.
      replace (Str.eqb (dst ++ slash :: rel) dst) with false.
      2:{ symmetry. apply StrFacts.eqb_neq. intros E.
          apply (f_equal (@List.length ascii)) in E.
          rewrite length_app in E. cbn [List.length] in E. lia. }
      replace (Str.eqb (src ++ slash :: rel) src) with false.
      2:{ symmetry. apply StrFacts.eqb_neq. intros E.
          apply (f_equal (@List.length ascii)) in E.
          rewrite length_app in E. cbn [List.length] in E. lia. }
      reflexivity.
    + apply StrFacts.startswith_split in U.
      rewrite length_app in U. cbn [List.length] in U.
      set (t := skipn (List.length src + 1) k) in *.
      rewrite U. rewrite <- (app_assoc src [slash] t). cbn [app].
      rewrite skipn_app, skipn_all, Nat.sub_diag. cbn [skipn app].
      rewrite !slash_path.
      now rewrite !TreeFacts.eqb_app_same.
  - replace (Str.eqb ((dst ++ [slash]) ++ rel) k) with false.
    2:{ symmetry. apply StrFacts.eqb_neq. intros E. subst k.
        now rewrite StrFacts.startswith_app in Nk. }
    replace (Str.eqb ((src ++ [slash]) ++ rel) k) with false.
    2:{ symmetry. apply StrFacts.eqb_neq. intros E. subst k.
        now rewrite under_below in U. }
    reflexivity.
Qed.

Lemma dirs_true_in (f : FS) (p : str) : dirs f p = true -> In p (dir_list f).
Proof.
  unfold dirs. intros H. apply existsb_exists in H as (d & Hd & E).
  apply StrFacts.eqb_eq in E. now subst d.
Qed.

Lemma dirs_rename_tree (f : FS) (src : str) :
  dirs f src = true ->
  dirs (rename_tree f src (src ++ lit ".bak")) (src ++ lit ".bak") = true
  /\ dirs (rename_tree f src (src ++ lit ".bak")) src = false.
Proof.
  intros H. apply dirs_true_in in H. unfold dirs, rename_tree.
  cbn [dir_list]. split.
  - apply existsb_exists. exists (src ++ lit ".bak").
    split; [|apply StrFacts.eqb_refl].
    apply in_map_iff. exists src. split.
    + unfold retarget, under. rewrite StrFacts.eqb_refl. cbn [orb].
      now rewrite skipn_all, app_nil_r.
    + apply filter_In. split; [exact H|].
      apply negb_true_iff, StrFacts.eqb_neq, bak_neq.
  - destruct (existsb _ _) eqn:E; [|reflexivity].
    apply existsb_exists in E as (d & Hd & E).
    apply StrFacts.eqb_eq in E. subst d.
    apply in_map_iff in Hd as (d & Hr & _).
    unfold retarget in Hr. destruct (under src d) eqn:U.
    + apply (f_equal (@List.length ascii)) in Hr.
      rewrite !length_app in Hr. cbn in Hr. lia.
    + subst d. unfold under in U. now rewrite StrFacts.eqb_refl in U.
Qed.

Lemma sed_inplace_on_dir (path pat repl : str) (w : World) :
  files (fs w) path = None ->
  dirs (fs w) path = true ->
  files (fs w) (path ++ lit ".bak") = None ->
  dirs (fs w) (path ++ lit ".bak") = false ->
  sed_inplace path pat repl w
  = (Raise IsADirectoryError,
     mkWorld (rename_tree (fs w) path (path ++ lit ".bak")) (console w)).
Proof.
  intros Hf Hd Hbf Hbd. unfold sed_inplace, unlink.
  rewrite Hbf, Hf, Hd, Hbd. reflexivity.
Qed.

Lemma touch_cases (parent p : str) (w : World) :
  dirs (fs w) parent = true ->
  touch_exist_ok parent p w = (Ok tt, w)
  \/ touch_exist_ok parent p w
     = (Ok tt, mkWorld (set_file (fs w) p (Some [])) (console w)).
Proof.
  intros H. unfold touch_exist_ok.
  destruct (exists_ (fs w) p); [now left|]. rewrite H. now right.
Qed.

Lemma existsb_remove_file (g : str * list str -> bool)
      (l : list (str * list str)) (p : str) :
  existsb g l = false -> existsb g (remove_file l p) = false.
Proof.
  unfold remove_file. induction l as [|e l IH]; [reflexivity|].
  cbn [existsb filter]. intros H. apply orb_false_iff in H as [He Hl].
  destruct (negb (Str.eqb (fst e) p)); [|now apply IH].
  cbn [existsb]. now rewrite He, IH.
Qed.

Lemma init_not_below_pb2_bak (env : Env) :
  startswith ((RPC_PB2_FILE env ++ lit ".bak") ++ [slash])
    (joinpath (ETCDRPC_DIR env) (lit "__init__.py")) = false.
Proof.
  unfold RPC_PB2_FILE, joinpath. rewrite <- !app_assoc.
  now rewrite TreeFacts.startswith_app_same.
Qed.

Lemma init_neq_below_pb2 (env : Env) (rel : str) :
  (RPC_PB2_FILE env ++ [slash]) ++ rel
  <> joinpath (ETCDRPC_DIR env) (lit "__init__.py").
Proof.
  unfold RPC_PB2_FILE, joinpath. rewrite <- !app_assoc. intros E.
  apply app_inv_head in E. discriminate E.
Qed.

(** When a directory stands at the path of [rpc_pb2.py] and nothing at its
    backup name, [fileinput] renames the directory before [open] refuses
    it: [main] ends with [IsADirectoryError], exit status 1, the directory
    is then at [rpc_pb2.py.bak], and every file it held is found there. *)
Theorem module_dir_moved (env : Env) (w w1 : World)
        (r : ProcessResult) (f : FS) :
  until_protoc env w = (Ok tt, w1) ->
  subprocess_run env (protoc_command env) (fs w1) = (r, f) ->
  returncode r = 0 ->
  dirs f (ETCDRPC_DIR env) = true ->
  files f (RPC_PB2_FILE env) = None ->
  dirs f (RPC_PB2_FILE env) = true ->
  files f (RPC_PB2_FILE env ++ lit ".bak") = None ->
  dirs f (RPC_PB2_FILE env ++ lit ".bak") = false ->
  dir_empty f (RPC_PB2_FILE env ++ lit ".bak") = true ->
  exists w2,
    main env w = (Raise IsADirectoryError, w2)
    /\ exit_status (fst (main env w)) = 1
    /\ dirs (fs w2) (RPC_PB2_FILE env) = false
    /\ dirs (fs w2) (RPC_PB2_FILE env ++ lit ".bak") = true
    /\ forall rel,
         files (fs w2) (((RPC_PB2_FILE env ++ lit ".bak") ++ [slash]) ++ rel)
         = files f ((RPC_PB2_FILE env ++ [slash]) ++ rel).
Proof.
  intros Hu Hr Hc Hd Hf Hpd Hbf Hbd He.
  unfold dir_empty in He. apply andb_true_iff in He as [He _].
  apply negb_true_iff in He.
  destruct (after_generator_ok env w w1 r f Hu Hr Hc) as (wb & Fb & ->).
  unfold modify_generated.
  set (init := joinpath (ETCDRPC_DIR env) (lit "__init__.py")).
  assert (T : exists fc,
             touch_exist_ok (ETCDRPC_DIR env) init wb
             = (Ok tt, mkWorld fc (console wb))
             /\ (fc = f \/ fc = set_file f init (Some []))).
  { destruct (touch_cases (ETCDRPC_DIR env) init wb) as [E | E];
      [now rewrite Fb| |].
    - exists f. split; [|now left]. rewrite E, <- Fb. now destruct wb.
    - exists (set_file f init (Some [])). split; [|now right].
      now rewrite E, Fb. }
  destruct T as (fc & Ec & Hfc).
  rewrite (bind_ok _ _ _ _ _ Ec). rewrite bind_print. cbn [fs console].
  assert (Kf : forall q, q <> init -> files fc q = files f q).
  { intros q Hq. destruct Hfc as [-> | ->]; [reflexivity|].
    now apply files_set_file_other. }
  assert (Kd : dirs fc = dirs f).
  { destruct Hfc as [-> | ->]; [reflexivity | apply dirs_set_file]. }
  assert (Ke : existsb
                 (fun e =>
                    startswith ((RPC_PB2_FILE env ++ lit ".bak") ++ [slash])
                      (fst e)) (file_list fc) = false).
  { destruct Hfc as [-> | ->]; [exact He|].
    unfold set_file. cbn [file_list existsb fst].
    subst init. rewrite init_not_below_pb2_bak. cbn [orb].
    now apply existsb_remove_file. }
  set (wd := mkWorld fc _).
  assert (P : patch_rpc_pb2 env wd
              = (Raise IsADirectoryError,
                 mkWorld
                   (rename_tree fc (RPC_PB2_FILE env)
                      (RPC_PB2_FILE env ++ lit ".bak"))
                   (console wd
                    ++ [(Stdout,
                         lit "Patching imports in " ++ RPC_PB2_FILE env)]))).
  { unfold patch_rpc_pb2.
    rewrite (bind_ok _ _ wd wd true).
    2:{ unfold path_exists, exists_. subst wd. cbn [fs].
        rewrite Kf by (intros E; symmetry in E;
                       now apply (init_neq_pb2 env)).
        now rewrite Hf, Kd, Hpd. }
    rewrite bind_print.
    erewrite bind_raise; [reflexivity|].
    subst wd. cbn [fs console].
    rewrite sed_inplace_on_dir; cbn [fs console]; try reflexivity.
    - rewrite Kf; [exact Hf|].
      intros E; symmetry in E; now apply (init_neq_pb2 env).
    - now rewrite Kd.
    - rewrite Kf; [exact Hbf|].
      intros E; symmetry in E; now apply (init_neq_pb2_bak env).
    - now rewrite Kd. }
  rewrite (bind_raise _ _ _ _ _ P).
  eexists. split; [reflexivity|]. cbn [fst exit_status fs].
  split; [reflexivity|].
  destruct (dirs_rename_tree fc (RPC_PB2_FILE env)) as [D1 D2];
    [now rewrite Kd|].
  split; [exact D2|]. split; [exact D1|].
  intros rel. rewrite (files_rename_tree_moved _ _ _ _ Ke).
  apply Kf. subst init. apply init_neq_below_pb2.
Qed.

Lemma module_dir_moved_witness :
  fst (main env_protoc_module_dir example_world) = Raise IsADirectoryError
  /\ files (fs (snd (main env_protoc_module_dir example_world)))
       (((RPC_PB2_FILE env_protoc_module_dir ++ lit ".bak") ++ [slash])
        ++ lit "keep.txt")
     = Some [nl "kept"].
Proof.
  destruct (module_dir_moved env_protoc_module_dir example_world
              (snd (until_protoc env_protoc_module_dir example_world))
              (mkResult 0 [] [])
              (set_dir
                 (set_file
                    (fs (snd (until_protoc env_protoc_module_dir
                                example_world)))
                    (lit "/repo/src/etcd3/etcdrpc/rpc_pb2.py/keep.txt")
                    (Some [nl "kept"]))
                 (lit "/repo/src/etcd3/etcdrpc/rpc_pb2.py")))
    as (w2 & E & _ & _ & _ & F);
    try (vm_compute; reflexivity).
  rewrite E. cbn [fst snd]. split; [reflexivity|].
  rewrite (F (lit "keep.txt")). vm_compute. reflexivity.
Defined.
